(** * KUtrace loadable module (riscv_linux/loadable-module/kutrace_mod.c)

    A shallow embedding of the trace-buffer engine of the RISC-V build of
    kutrace_mod.c: the record codec, the IPC bucket function, the per-CPU
    claim allocator with its fast and slow paths, the block initializer,
    the insert routines and the control surface.

    Conventions.
    - A [u64] is a [Z] in [0, 2^64); every C operation that can leave that
      range is followed by its wrap-around ([u64], [u32], [s32]).
    - A pointer is the byte address it holds, a [u64]; [NULL] is 0.  Pointer
      arithmetic on [u64 *] scales by 8 and wraps like the machine's.
    - Trace memory is a finite map from the byte address of an aligned
      64-bit word to the word stored there; a byte store (the IPC side
      channel) rewrites one byte lane of the enclosing little-endian word.
    - Values the module reads from the hardware or from the running kernel
      (time counter, instructions retired, CPU number, current task) are
      handed to each routine in a [hw] record.
    - Code that interrupts a CPU in the middle of a claim is a function on
      the state; [get_claim] takes the list of such handlers and runs one
      per pass of its loop, between the atomic add on the cursor and the
      second read of the limit.  Everything else runs uninterrupted.
    - A routine that may divide by zero returns an [option]; [None] is the
      division by zero.
    - The build is the one selected by [IsRiscv]. *)

From Stdlib Require Import ZArith Lia Bool List.
From coqutil Require Import Z.bitblast.
From stdpp Require Import base option list gmap.

Local Open Scope Z_scope.

(** ** Machine integers *)

Definition u64 (z : Z) : Z := z mod 2 ^ 64.
Definition u32 (z : Z) : Z := z mod 2 ^ 32.
(** Conversion to a signed 64-bit value ([ptrdiff_t], [long]). *)
Definition s64 (z : Z) : Z :=
  let r := z mod 2 ^ 64 in if r <? 2 ^ 63 then r else r - 2 ^ 64.
(** Conversion to [int], as at a call of [is_bad_len] with a [u64]. *)
Definition s32 (z : Z) : Z :=
  let r := z mod 2 ^ 32 in if r <? 2 ^ 31 then r else r - 2 ^ 32.
(** [~x] on a [u64]. *)
Definition not64 (x : Z) : Z := u64 (Z.lnot x).

Definition NULL : Z := 0.

(** [p + n] and [p - n] for [u64 *p]. *)
Definition ptr_add (p n : Z) : Z := u64 (p + 8 * n).
Definition ptr_sub (p n : Z) : Z := u64 (p - 8 * n).
(** [(u64)(p - q)] for [u64 *p, *q]: the signed byte distance over 8. *)
Definition ptr_diff (p q : Z) : Z := u64 (Z.shiftr (s64 (p - q)) 3).

(** ** Constants of the record format *)

Definition ARG0_MASK : Z := 0x000000000000ffff.
Definition RETVAL_MASK : Z := 0x0000000000ff0000.
Definition DELTA_MASK : Z := 0x00000000ff000000.
Definition EVENT_MASK : Z := 0x00000fff00000000.
Definition TIMESTAMP_MASK : Z := 0xfffff00000000000.
Definition EVENT_DELTA_RETVAL_MASK : Z :=
  Z.lor (Z.lor EVENT_MASK DELTA_MASK) RETVAL_MASK.
Definition EVENT_RETURN_BIT : Z := 0x0000020000000000.
Definition EVENT_LENGTH_FIELD_MASK : Z := 0xf.

Definition UNSHIFTED_RETVAL_MASK : Z := 0xff.
Definition UNSHIFTED_DELTA_MASK : Z := 0xff.
Definition UNSHIFTED_EVENT_MASK : Z := 0xfff.
Definition UNSHIFTED_TIMESTAMP_MASK : Z := 0xfffff.
Definition UNSHIFTED_EVENT_RETURN_BIT : Z := 0x200.
Definition UNSHIFTED_EVENT_HAS_RETURN_MASK : Z := 0xc00.

Definition MIN_EVENT_WITH_LENGTH : Z := 0x010.
Definition MAX_EVENT_WITH_LENGTH : Z := 0x1ff.
Definition MAX_DELTA_VALUE : Z := 255.
Definition MAX_PIDNAME_LENGTH : Z := 16.

Definition RETVAL_SHIFT : Z := 16.
Definition DELTA_SHIFT : Z := 24.
Definition EVENT_SHIFT : Z := 32.
Definition TIMESTAMP_SHIFT : Z := 44.
Definition EVENT_LENGTH_FIELD_SHIFT : Z := 4.

Definition FULL_TIMESTAMP_MASK : Z := 0x00ffffffffffffff.
Definition CPU_NUMBER_SHIFT : Z := 56.
Definition FLAGS_SHIFT : Z := 56.

Definition IPC_Flag : Z := 0x80.
Definition WRAP_Flag : Z := 0x40.
Definition DO_IPC : Z := 1.
Definition DO_WRAP : Z := 2.

Definition kModuleVersionNumber : Z := 3.
(** Not a 32-bit Arm build: the time counter does not wrap. *)
Definition kCounterWrapIncrease : Z := 0.
Definition kCounterWrapMask : Z := 0.

Definition KUTRACEBLOCKSHIFT : Z := 16.
Definition KUTRACEBLOCKSIZE : Z := Z.shiftl 1 KUTRACEBLOCKSHIFT.
Definition KUTRACEBLOCKSHIFTU64 : Z := KUTRACEBLOCKSHIFT - 3.
Definition KUTRACEBLOCKSIZEU64 : Z := Z.shiftl 1 KUTRACEBLOCKSHIFTU64.
Definition KUIPCBLOCKSHIFTU8 : Z := KUTRACEBLOCKSHIFTU64 - 3.
Definition KUIPCBLOCKSIZEU8 : Z := Z.shiftl 1 KUIPCBLOCKSHIFTU8.

(** ** IPC bucket *)

Definition kIpcMapping : list Z :=
  [ 0; 1; 2; 3;  4; 5; 6; 7;  8; 8; 9; 9;  10; 10; 11; 11;
    12; 12; 12; 12;  13; 13; 13; 13;  14; 14; 14; 14;  15; 15; 15; 15;
    15; 15; 15; 15;  15; 15; 15; 15;  15; 15; 15; 15;  15; 15; 15; 15;
    15; 15; 15; 15;  15; 15; 15; 15;  15; 15; 15; 15;  15; 15; 15; 15 ].

(** 32-bit unsigned division; [None] is a division by zero. *)
Definition udiv32 (a b : Z) : option Z :=
  if b =? 0 then None else Some (a / b).

(** [get_granular], RISC-V branch: [del_cycles = (u32)(delta_cycles * 150)]. *)
Definition get_granular (delta_inst delta_cycles : Z) : option Z :=
  if Z.land delta_cycles (not64 1) =? 0 then Some 0
  else
    let del_inst := u32 delta_inst in
    let del_cycles := u32 (u64 (delta_cycles * 150)) in
    match udiv32 del_inst del_cycles with
    | None => None
    | Some ipc => Some (nth (Z.to_nat (Z.land ipc 0x3F)) kIpcMapping 0)
    end.

(** ** Record lengths *)

Definition is_bad_len (len : Z) : bool := (len <? 1) || (8 <? len).

Definition entry_len (word : Z) : Z :=
  let n := Z.land (Z.shiftr word EVENT_SHIFT) UNSHIFTED_EVENT_MASK in
  if MAX_EVENT_WITH_LENGTH <? n then 1
  else if n <? MIN_EVENT_WITH_LENGTH then 1
  else Z.land (Z.shiftr n EVENT_LENGTH_FIELD_SHIFT) EVENT_LENGTH_FIELD_MASK.

(** ** Trace memory *)

Definition load64 (m : gmap Z Z) (a : Z) : Z := default 0 (m !! a).
Definition store64 (m : gmap Z Z) (a v : Z) : gmap Z Z := <[a := v]> m.

(** One byte of memory, read and written through the aligned word that
    holds it (little-endian lanes). *)
Definition load8 (m : gmap Z Z) (a : Z) : Z :=
  Z.land (Z.shiftr (load64 m (a - a mod 8)) (8 * (a mod 8))) 0xff.
Definition store8 (m : gmap Z Z) (a v : Z) : gmap Z Z :=
  let base := a - a mod 8 in
  let sh := 8 * (a mod 8) in
  store64 m base
    (Z.lor (Z.ldiff (load64 m base) (Z.shiftl 0xff sh))
           (Z.shiftl (Z.land v 0xff) sh)).

(** [for (p = from; p < to; ++p) *p = 0;] run for [n] words. *)
Fixpoint zero_words (n : nat) (from : Z) (m : gmap Z Z) : gmap Z Z :=
  match n with
  | O => m
  | S n' => zero_words n' (ptr_add from 1) (store64 m from 0)
  end.

(** Little-endian value of a run of bytes, as [memcpy] lays them out. *)
Definition le_bytes (bs : list Byte.byte) : Z :=
  fold_right (fun b acc => Z.of_N (Byte.to_N b) + 256 * acc) 0 bs.

(** ** State of the module *)

(** [struct kutrace_traceblock], one per CPU. *)
Record kutrace_traceblock := mk_tb {
  tb_next : Z;                (* atomic cursor, a u64* held as an integer *)
  tb_limit : Z;               (* end of the CPU's current block *)
  prior_cycles : Z;
  prior_inst_retired : Z
}.

Definition null_tb : kutrace_traceblock := mk_tb NULL NULL 0 0.

Record state := mk_state {
  kutrace_tracing : bool;
  do_ipc : bool;
  do_wrap : bool;
  tracemb : Z;                       (* module parameter *)
  tracebase : Z;                     (* char*, NULL before allocation *)
  traceblock_high : Z;
  traceblock_limit : Z;
  traceblock_next : Z;
  did_wrap_around : bool;
  prior_block_init_counter : Z;
  kutrace_pid_filter : list Z;       (* 1024 u64 = 64K bits *)
  per_cpu : list kutrace_traceblock; (* indexed by CPU number *)
  mem : gmap Z Z
}.

(** What one call reads from the machine and the running kernel. *)
Record hw := mk_hw {
  hw_cpu : nat;               (* smp_processor_id() *)
  hw_now : Z;                 (* ku_get_timecount() at the start of an insert *)
  hw_block_time : Z;          (* ku_get_timecount() in initialize_trace_block *)
  hw_inst_retired : Z;        (* ku_get_inst_retired() *)
  hw_pid : Z;                 (* current->pid, as stored into a u64 *)
  hw_comm : list Byte.byte    (* current->comm *)
}.

(** *** Field updates *)

Definition set_tracing (b : bool) (s : state) : state :=
  mk_state b (do_ipc s) (do_wrap s) (tracemb s) (tracebase s)
    (traceblock_high s) (traceblock_limit s) (traceblock_next s)
    (did_wrap_around s) (prior_block_init_counter s) (kutrace_pid_filter s)
    (per_cpu s) (mem s).

Definition set_traceblock_next (p : Z) (s : state) : state :=
  mk_state (kutrace_tracing s) (do_ipc s) (do_wrap s) (tracemb s) (tracebase s)
    (traceblock_high s) (traceblock_limit s) p
    (did_wrap_around s) (prior_block_init_counter s) (kutrace_pid_filter s)
    (per_cpu s) (mem s).

Definition set_did_wrap_around (b : bool) (s : state) : state :=
  mk_state (kutrace_tracing s) (do_ipc s) (do_wrap s) (tracemb s) (tracebase s)
    (traceblock_high s) (traceblock_limit s) (traceblock_next s)
    b (prior_block_init_counter s) (kutrace_pid_filter s)
    (per_cpu s) (mem s).

Definition set_prior_block_init_counter (c : Z) (s : state) : state :=
  mk_state (kutrace_tracing s) (do_ipc s) (do_wrap s) (tracemb s) (tracebase s)
    (traceblock_high s) (traceblock_limit s) (traceblock_next s)
    (did_wrap_around s) c (kutrace_pid_filter s)
    (per_cpu s) (mem s).

Definition set_pid_filter (f : list Z) (s : state) : state :=
  mk_state (kutrace_tracing s) (do_ipc s) (do_wrap s) (tracemb s) (tracebase s)
    (traceblock_high s) (traceblock_limit s) (traceblock_next s)
    (did_wrap_around s) (prior_block_init_counter s) f
    (per_cpu s) (mem s).

Definition set_per_cpu (l : list kutrace_traceblock) (s : state) : state :=
  mk_state (kutrace_tracing s) (do_ipc s) (do_wrap s) (tracemb s) (tracebase s)
    (traceblock_high s) (traceblock_limit s) (traceblock_next s)
    (did_wrap_around s) (prior_block_init_counter s) (kutrace_pid_filter s)
    l (mem s).

Definition set_mem (m : gmap Z Z) (s : state) : state :=
  mk_state (kutrace_tracing s) (do_ipc s) (do_wrap s) (tracemb s) (tracebase s)
    (traceblock_high s) (traceblock_limit s) (traceblock_next s)
    (did_wrap_around s) (prior_block_init_counter s) (kutrace_pid_filter s)
    (per_cpu s) m.

(** [*p = v] and [p[i] = v] on trace memory. *)
Definition poke (p v : Z) (s : state) : state :=
  set_mem (store64 (mem s) p v) s.
Definition peek (p : Z) (s : state) : Z := load64 (mem s) p.

(** [&per_cpu(kutrace_traceblock_per_cpu, cpu)] and a write through it. *)
Definition tb_of (s : state) (cpu : nat) : kutrace_traceblock :=
  default null_tb (per_cpu s !! cpu).
Definition set_tb (cpu : nat) (tb : kutrace_traceblock) (s : state) : state :=
  set_per_cpu (<[cpu := tb]> (per_cpu s)) s.

Definition tb_set_next (v : Z) (tb : kutrace_traceblock) :=
  mk_tb v (tb_limit tb) (prior_cycles tb) (prior_inst_retired tb).
Definition tb_set_limit (v : Z) (tb : kutrace_traceblock) :=
  mk_tb (tb_next tb) v (prior_cycles tb) (prior_inst_retired tb).
Definition tb_set_prior_cycles (v : Z) (tb : kutrace_traceblock) :=
  mk_tb (tb_next tb) (tb_limit tb) v (prior_inst_retired tb).
Definition tb_set_prior_inst_retired (v : Z) (tb : kutrace_traceblock) :=
  mk_tb (tb_next tb) (tb_limit tb) (prior_cycles tb) v.

(** [ATOMIC_ADD_RETURN(n, &tb->next)]: adds and returns the updated value. *)
Definition atomic_add_return (n : Z) (cpu : nat) (s : state) : state * Z :=
  let v := u64 (tb_next (tb_of s cpu) + n) in
  (set_tb cpu (tb_set_next v (tb_of s cpu)) s, v).

(** ** Session commands that only touch flags and cursors *)

Definition do_trace_off (s : state) : state * Z :=
  (set_tracing false s, 0).

Definition do_trace_on (s : state) : state * Z :=
  (set_tracing true s, 1).

(** Body of the [for_each_online_cpu] loop of [do_flush] for the CPUs
    [cpu, cpu+1, ...] whose descriptors are [tbs]; returns the descriptors
    after the pass, the memory and the count of words zeroed. *)
Fixpoint do_flush_cpus (tbs : list kutrace_traceblock) (m : gmap Z Z)
    (zeroed : Z) : list kutrace_traceblock * gmap Z Z * Z :=
  match tbs with
  | [] => ([], m, zeroed)
  | tb :: rest =>
      let next_item := tb_next tb in
      let limit_item := tb_limit tb in
      if (next_item =? NULL) || (limit_item =? NULL) then
        let '(rest', m', z') := do_flush_cpus rest m zeroed in
        (tb :: rest', m', z')
      else
        let n := if next_item <? limit_item
                 then Z.to_nat ((limit_item - next_item + 7) / 8) else O in
        let '(rest', m', z') :=
          do_flush_cpus rest (zero_words n next_item m)
            (s32 (zeroed + Z.of_nat n)) in
        (tb_set_next limit_item tb :: rest', m', z')
  end.

Definition do_flush (s : state) : state * Z :=
  let s := set_tracing false s in
  let '(tbs, m, zeroed) := do_flush_cpus (per_cpu s) (mem s) 0 in
  (set_mem m (set_per_cpu tbs s), u64 zeroed).

(** [(u64)(p - q) >> KUTRACEBLOCKSHIFTU64]. *)
Definition do_stat (s : state) : state * Z :=
  if did_wrap_around s || (traceblock_next s <? traceblock_limit s)
  then (s, Z.shiftr (ptr_diff (traceblock_high s) (traceblock_limit s))
             KUTRACEBLOCKSHIFTU64)
  else (s, Z.shiftr (ptr_diff (traceblock_high s) (traceblock_next s))
             KUTRACEBLOCKSHIFTU64).

Definition get_count (s : state) : state * Z :=
  let s := set_tracing false s in
  if did_wrap_around s || (traceblock_next s <? traceblock_limit s)
  then (s, ptr_diff (traceblock_high s) (traceblock_limit s))
  else (s, ptr_diff (traceblock_high s) (traceblock_next s)).

Definition get_word (subscr : Z) (s : state) : state * Z :=
  let s := set_tracing false s in
  let '(s, count) := get_count s in
  if count <=? subscr then (s, 0)
  else
    let blocknum := Z.shiftr subscr KUTRACEBLOCKSHIFTU64 in
    let u64_within_block :=
      Z.land subscr (Z.shiftl 1 KUTRACEBLOCKSHIFTU64 - 1) in
    let blockp :=
      ptr_sub (traceblock_high s)
        (u64 (Z.shiftl (blocknum + 1) KUTRACEBLOCKSHIFTU64)) in
    (s, peek (ptr_add blockp u64_within_block) s).

Definition get_ipc_word (subscr : Z) (s : state) : state * Z :=
  let s := set_tracing false s in
  let '(s, count) := get_count s in
  if Z.shiftr count 3 <=? subscr then (s, 0)
  else
    let blocknum := Z.shiftr subscr KUIPCBLOCKSHIFTU8 in
    let u64_within_block :=
      Z.land subscr (Z.shiftl 1 KUIPCBLOCKSHIFTU8 - 1) in
    let blockp :=
      ptr_sub (traceblock_limit s)
        (u64 (Z.shiftl (blocknum + 1) KUIPCBLOCKSHIFTU8)) in
    (s, peek (ptr_add blockp u64_within_block) s).

(** ** Block initializer *)

(** [p[i] = 0] for each [i] of [idx]. *)
Definition zero_at (p : Z) (idx : list Z) (s : state) : state :=
  foldl (fun s i => poke (ptr_add p i) 0 s) s idx.

Definition initialize_trace_block (h : hw) (init_me : Z)
    (very_first_block : bool) (s : state) : state * Z :=
  let cpu := Z.of_nat (hw_cpu h) in
  let block_init_counter := hw_block_time h in
  let block_init_counter :=
    Z.lor block_init_counter
      (Z.land (prior_block_init_counter s) kCounterWrapMask) in
  let block_init_counter :=
    if block_init_counter <? prior_block_init_counter s
    then u64 (block_init_counter + kCounterWrapIncrease)
    else block_init_counter in
  let s := set_prior_block_init_counter block_init_counter s in
  let s :=
    poke init_me
      (Z.lor (Z.land block_init_counter FULL_TIMESTAMP_MASK)
             (u64 (Z.shiftl cpu CPU_NUMBER_SHIFT))) s in
  let flags := 0 in
  let flags :=
    if do_ipc s then Z.lor flags (u64 (Z.shiftl IPC_Flag FLAGS_SHIFT))
    else flags in
  let flags :=
    if do_wrap s then Z.lor flags (u64 (Z.shiftl WRAP_Flag FLAGS_SHIFT))
    else flags in
  let s := poke (ptr_add init_me 1) flags s in
  let '(s, myclaim) :=
    if very_first_block
    then (zero_at init_me [2; 3; 4; 5; 6; 7] s, ptr_add init_me 8)
    else (s, ptr_add init_me 2) in
  let s := poke myclaim (u64 (hw_pid h)) s in
  let s := poke (ptr_add myclaim 1) 0 s in
  let s := poke (ptr_add myclaim 2) (le_bytes (take 8 (hw_comm h))) s in
  let s :=
    poke (ptr_add myclaim 3) (le_bytes (take 8 (drop 8 (hw_comm h)))) s in
  let myclaim := ptr_add myclaim 4 in
  let s :=
    zero_at init_me
      (map (fun k => KUTRACEBLOCKSIZEU64 - k) [8; 7; 6; 5; 4; 3; 2; 1]) s in
  let tb := tb_of s (hw_cpu h) in
  let first_block_per_cpu := prior_cycles tb =? 0 in
  let s :=
    if first_block_per_cpu
    then set_tb (hw_cpu h) (tb_set_prior_cycles 1 tb) s
    else s in
  (s, myclaim).

(** ** Claim allocator *)

(** Tail of [really_get_slow_claim] once the block at [traceblock_next]
    is known to be usable. *)
Definition open_block (h : hw) (len : Z) (very_first_block : bool)
    (s : state) : state * Z :=
  let '(s, myclaim) :=
    initialize_trace_block h (traceblock_next s) very_first_block s in
  let tb := tb_of s (hw_cpu h) in
  let s := set_tb (hw_cpu h) (tb_set_next (ptr_add myclaim len) tb) s in
  let tb := tb_of s (hw_cpu h) in
  let s :=
    set_tb (hw_cpu h)
      (tb_set_limit (ptr_add (traceblock_next s) KUTRACEBLOCKSIZEU64) tb) s in
  (s, myclaim).

Definition really_get_slow_claim (h : hw) (len : Z) (s : state) : state * Z :=
  let very_first_block := traceblock_next s =? traceblock_high s in
  let s :=
    set_traceblock_next (ptr_sub (traceblock_next s) KUTRACEBLOCKSIZEU64) s in
  if traceblock_next s <? traceblock_limit s then
    if do_wrap s then
      let s := set_did_wrap_around true s in
      let s :=
        set_traceblock_next
          (ptr_sub (traceblock_high s) (2 * KUTRACEBLOCKSIZEU64)) s in
      let s := set_pid_filter (replicate 1024 0) s in
      open_block h len very_first_block s
    else (set_tracing false s, NULL)
  else open_block h len very_first_block s.

(** [len * sizeof(u64)] as the [u64] handed to the atomic add. *)
Definition claim_bytes (len : Z) : Z := u64 (len * 8).

Definition get_slow_claim (h : hw) (len : Z) (s : state) : state * Z :=
  if is_bad_len len then (set_tracing false s, NULL)
  else
    let limit_item := tb_limit (tb_of s (hw_cpu h)) in
    let '(s, newnext) := atomic_add_return (claim_bytes len) (hw_cpu h) s in
    let myclaim := ptr_sub newnext len in
    if (limit_item <=? ptr_add myclaim len) || (limit_item =? NULL)
    then really_get_slow_claim h len s
    else (s, myclaim).

(** The [do ... while (true)] loop of [get_claim].  Whatever interrupts
    this CPU between the atomic add and the second read of [tb->limit] is
    given as a list of handlers, one per pass of the loop, each a function
    on the state; with no handler left the two reads agree and the loop
    ends.  [myclaim] and [limit_item_again] carry the values the C locals
    hold on entry to the pass.  Returns the state and the two locals. *)
Fixpoint get_claim_fast (irqs : list (state -> state)) (len : Z) (cpu : nat)
    (myclaim limit_item_again : Z) (s : state) : state * Z * Z :=
  let limit_item := tb_limit (tb_of s cpu) in
  if limit_item =? NULL then (s, myclaim, limit_item_again)
  else
    let '(s, newnext) := atomic_add_return (claim_bytes len) cpu s in
    let myclaim := ptr_sub newnext len in
    let s := match irqs with [] => s | irq :: _ => irq s end in
    let limit_item_again := tb_limit (tb_of s cpu) in
    if limit_item =? limit_item_again then (s, myclaim, limit_item_again)
    else if (myclaim <? limit_item_again)
            && (ptr_sub limit_item_again KUTRACEBLOCKSIZEU64 <=? myclaim)
    then (s, myclaim, limit_item_again)
    else
      match irqs with
      | [] => (s, myclaim, limit_item_again)
      | _ :: rest => get_claim_fast rest len cpu myclaim limit_item_again s
      end.

Definition get_claim (irqs : list (state -> state)) (h : hw) (len : Z)
    (s : state) : state * Z :=
  if is_bad_len len then (set_tracing false s, NULL)
  else
    let '(s, myclaim, limit_item_again) :=
      get_claim_fast irqs len (hw_cpu h) NULL NULL s in
    if limit_item_again <=? ptr_add myclaim len
    then get_slow_claim h len s
    else (s, myclaim).

Definition get_prior (h : hw) (s : state) : Z :=
  let next_item := tb_next (tb_of s (hw_cpu h)) in
  let limit_item := tb_limit (tb_of s (hw_cpu h)) in
  if next_item <? limit_item then ptr_sub next_item 1 else NULL.

(** ** Insert routines *)

(** The IPC sampling block shared verbatim by [insert_1] and
    [insert_1_retopt]: returns the state with the CPU's prior counters
    replaced, and [delta_inst], [delta_cycles]. *)
Definition ipc_sample (h : hw) (s : state) : state * Z * Z :=
  let tb := tb_of s (hw_cpu h) in
  let delta_cycles := u64 (hw_now h - prior_cycles tb) in
  let s := set_tb (hw_cpu h) (tb_set_prior_cycles (hw_now h) tb) s in
  let tb := tb_of s (hw_cpu h) in
  let inst_ret := hw_inst_retired h in
  let delta_inst := u64 (inst_ret - prior_inst_retired tb) in
  let s := set_tb (hw_cpu h) (tb_set_prior_inst_retired inst_ret tb) s in
  (s, delta_inst, delta_cycles).

(** The byte address [tracebase + (p - tracebase)], the difference taken
    between [u64] pointers, that is in words. *)
Definition ipc_byte_addr (p : Z) (s : state) : Z :=
  u64 (tracebase s + Z.shiftr (s64 (p - tracebase s)) 3).

(** [None] is a division by zero inside [get_granular]. *)
Definition insert_1 (irqs : list (state -> state)) (h : hw) (arg1 : Z)
    (s : state) : option (state * Z) :=
  let now := hw_now h in
  let '(s, claim) := get_claim irqs h 1 s in
  if claim =? NULL then Some (s, 0)
  else
    let s := poke claim (Z.lor arg1 (u64 (Z.shiftl now TIMESTAMP_SHIFT))) s in
    if do_ipc s then
      let '(s, delta_inst, delta_cycles) := ipc_sample h s in
      match get_granular delta_inst delta_cycles with
      | None => None
      | Some g => Some (set_mem (store8 (mem s) (ipc_byte_addr claim s) g) s, 1)
      end
    else Some (s, 1).

(** The "Combine" block of [insert_1_retopt]. *)
Definition retopt_combine (h : hw) (prior_entry delta_t arg1 : Z)
    (s : state) : option (state * Z) :=
  let opt_ret :=
    Z.lor (u64 (Z.shiftl delta_t DELTA_SHIFT))
          (u64 (Z.shiftl (Z.land arg1 UNSHIFTED_RETVAL_MASK) RETVAL_SHIFT)) in
  let s := poke prior_entry (Z.lor (peek prior_entry s) opt_ret) s in
  if do_ipc s then
    let '(s, delta_inst, delta_cycles) := ipc_sample h s in
    match get_granular delta_inst delta_cycles with
    | None => None
    | Some g =>
        let a := ipc_byte_addr prior_entry s in
        let b := Z.land (Z.lor (load8 (mem s) a) (u64 (Z.shiftl g 4))) 0xff in
        Some (set_mem (store8 (mem s) a b) s, 0)
    end
  else Some (s, 0).

Definition insert_1_retopt (irqs : list (state -> state)) (h : hw) (arg1 : Z)
    (s : state) : option (state * Z) :=
  let now := hw_now h in
  let prior_entry := get_prior h s in
  if prior_entry =? NULL then insert_1 irqs h arg1 s
  else
    let diff :=
      Z.land (Z.lxor (peek prior_entry s) arg1) EVENT_DELTA_RETVAL_MASK in
    let prior_t := Z.shiftr (peek prior_entry s) TIMESTAMP_SHIFT in
    let delta_t := Z.land (u64 (now - prior_t)) UNSHIFTED_TIMESTAMP_MASK in
    let delta_t := if delta_t =? 0 then 1 else delta_t in
    if (diff =? EVENT_RETURN_BIT) && (delta_t <=? MAX_DELTA_VALUE)
    then retopt_combine h prior_entry delta_t arg1 s
    else insert_1 irqs h arg1 s.

Definition insert_2 (irqs : list (state -> state)) (h : hw) (arg1 arg2 : Z)
    (s : state) : state * Z :=
  let now := hw_now h in
  let '(s, claim) := get_claim irqs h 2 s in
  if claim =? NULL then (s, 0)
  else
    let s := poke claim (Z.lor arg1 (u64 (Z.shiftl now TIMESTAMP_SHIFT))) s in
    let s := poke (ptr_add claim 1) arg2 s in
    (s, 2).

(** [memcpy(&dst[from], &src[from], ...)] of the words [from .. len-1]. *)
Definition copy_words (dst : Z) (src : list Z) (from len : Z) (s : state)
    : state :=
  foldl (fun s i => poke (ptr_add dst i) (nth (Z.to_nat i) src 0) s) s
        (seqZ from (len - from)).

(** [word] points at the kernel array [krnl]. *)
Definition insert_n_krnl (irqs : list (state -> state)) (h : hw)
    (krnl : list Z) (s : state) : state * Z :=
  let len := entry_len (nth 0 krnl 0) in
  if is_bad_len (s32 len) then (set_tracing false s, 0)
  else
    let now := hw_now h in
    let '(s, claim) := get_claim irqs h (s32 len) s in
    if claim =? NULL then (s, 0)
    else
      let s :=
        poke claim
          (Z.lor (nth 0 krnl 0) (u64 (Z.shiftl now TIMESTAMP_SHIFT))) s in
      (copy_words claim krnl 1 len s, len).

(** [word] points at user memory; [user] is [None] when
    [raw_copy_from_user] leaves bytes uncopied, else the eight words read. *)
Definition insert_n_user (irqs : list (state -> state)) (h : hw)
    (user : option (list Z)) (s : state) : state * Z :=
  match user with
  | None => (s, 0)
  | Some temp =>
      let len := entry_len (nth 0 temp 0) in
      if is_bad_len (s32 len) then (set_tracing false s, 0)
      else
        let now := hw_now h in
        let '(s, claim) := get_claim irqs h (s32 len) s in
        if claim =? NULL then (s, 0)
        else
          let temp0 :=
            Z.lor (nth 0 temp 0) (u64 (Z.shiftl now TIMESTAMP_SHIFT)) in
          (copy_words claim (temp0 :: tail temp) 0 len s, len)
  end.

(** ** Reset *)

Definition do_reset (flags : Z) (s : state) : state * Z :=
  let ipc := negb (Z.land flags DO_IPC =? 0) in
  let wrap := negb (Z.land flags DO_WRAP =? 0) in
  let high := u64 (tracebase s + Z.shiftl (tracemb s) 20) in
  let limit :=
    if ipc then u64 (tracebase s + Z.shiftl (tracemb s) (20 - 3))
    else tracebase s in
  (mk_state false ipc wrap (tracemb s) (tracebase s)
     high limit high false 0 (replicate 1024 0)
     (map (fun _ => null_tb) (per_cpu s)) (mem s), 0).

(** ** Entry points called from kernel patches *)

Definition trace_1 (irqs : list (state -> state)) (h : hw) (event arg : Z)
    (s : state) : option state :=
  if negb (kutrace_tracing s) then Some s
  else
    let event_arg :=
      Z.lor (u64 (Z.shiftl event EVENT_SHIFT)) (Z.land arg 0xffffffff) in
    if negb (Z.land event UNSHIFTED_EVENT_RETURN_BIT =? 0)
       && negb (Z.land event UNSHIFTED_EVENT_HAS_RETURN_MASK =? 0)
       && (Z.land (u64 (arg + 128)) (not64 UNSHIFTED_RETVAL_MASK) =? 0)
    then fst <$> insert_1_retopt irqs h event_arg s
    else fst <$> insert_1 irqs h event_arg s.

(** [ku_get_cpu_freq()] is the constant 1196 on this board. *)
Definition ku_get_cpu_freq : Z := 1196.

Definition trace_2 (irqs : list (state -> state)) (h : hw)
    (event arg1 arg2 : Z) (s : state) : state :=
  if negb (kutrace_tracing s) then s
  else
    fst (insert_2 irqs h
           (Z.lor (u64 (Z.shiftl event EVENT_SHIFT)) ku_get_cpu_freq) arg2 s).

Definition trace_many (irqs : list (state -> state)) (h : hw)
    (event len : Z) (arg : list Z) (s : state) : state :=
  if negb (kutrace_tracing s) then s
  else if is_bad_len (s32 len) then set_tracing false s
  else
    let temp := take (Z.to_nat len) arg in
    let temp0 :=
      Z.lor (nth 0 temp 0)
        (u64 (Z.shiftl (Z.lor event
                          (u64 (Z.shiftl len EVENT_LENGTH_FIELD_SHIFT)))
                       EVENT_SHIFT)) in
    fst (insert_n_krnl irqs h (temp0 :: tail temp) s).

(** ** Control surface *)

(** The numeric command codes live in [include/linux/kutrace.h]; the
    dispatch is modelled on the decoded command.  [CMD_FORCE_INSERT1] and
    [CMD_FORCE_INSERTN] are the complemented codes [~KUTRACE_CMD_INSERT1]
    and [~KUTRACE_CMD_INSERTN]; [CMD_OTHER] is any other value. *)
Inductive command :=
  | KUTRACE_CMD_OFF | KUTRACE_CMD_ON | KUTRACE_CMD_FLUSH | KUTRACE_CMD_RESET
  | KUTRACE_CMD_STAT | KUTRACE_CMD_GETCOUNT | KUTRACE_CMD_GETWORD
  | KUTRACE_CMD_GETIPCWORD | KUTRACE_CMD_INSERT1 | KUTRACE_CMD_INSERTN
  | KUTRACE_CMD_TEST | KUTRACE_CMD_VERSION
  | CMD_FORCE_INSERT1 | CMD_FORCE_INSERTN | CMD_OTHER.

(** [user] is what [raw_copy_from_user] would read at [arg], used by the
    INSERTN commands only.  All-ones is the failure value. *)
Definition kutrace_control (irqs : list (state -> state)) (h : hw)
    (user : option (list Z)) (cmd : command) (arg : Z) (s : state)
    : option (state * Z) :=
  if tracebase s =? NULL then Some (set_tracing false s, not64 0)
  else
    match cmd with
    | KUTRACE_CMD_OFF => Some (do_trace_off s)
    | KUTRACE_CMD_ON => Some (do_trace_on s)
    | KUTRACE_CMD_FLUSH => Some (do_flush s)
    | KUTRACE_CMD_RESET => Some (do_reset arg s)
    | KUTRACE_CMD_STAT => Some (do_stat s)
    | KUTRACE_CMD_GETCOUNT =>
        if did_wrap_around s
        then let '(s, c) := get_count s in Some (s, not64 c)
        else Some (get_count s)
    | KUTRACE_CMD_GETWORD => Some (get_word arg s)
    | KUTRACE_CMD_GETIPCWORD => Some (get_ipc_word arg s)
    | KUTRACE_CMD_INSERT1 =>
        if negb (kutrace_tracing s) then Some (s, 0)
        else insert_1 irqs h arg s
    | KUTRACE_CMD_INSERTN =>
        if negb (kutrace_tracing s) then Some (s, 0)
        else Some (insert_n_user irqs h user s)
    | KUTRACE_CMD_TEST => Some (s, if kutrace_tracing s then 1 else 0)
    | KUTRACE_CMD_VERSION => Some (s, kModuleVersionNumber)
    | CMD_FORCE_INSERT1 => insert_1 irqs h arg s
    | CMD_FORCE_INSERTN => Some (insert_n_user irqs h user s)
    | CMD_OTHER => Some (s, not64 0)
    end.

(** * Notions used to state the properties

    ** The allocator's view of a state *)

(** The part of a descriptor the allocator works on. *)
Definition cursor (tb : kutrace_traceblock) : Z * Z := (tb_next tb, tb_limit tb).
Definition cursors (s : state) : list (Z * Z) := map cursor (per_cpu s).

(** Everything but memory contents and the IPC and timestamp bookkeeping. *)
Record view := mk_view {
  v_tracing : bool; v_ipc : bool; v_wrap : bool; v_mb : Z; v_base : Z;
  v_high : Z; v_limit : Z; v_next : Z; v_wrapped : bool;
  v_filter : list Z; v_cursors : list (Z * Z)
}.

Definition view_of (s : state) : view :=
  mk_view (kutrace_tracing s) (do_ipc s) (do_wrap s) (tracemb s) (tracebase s)
    (traceblock_high s) (traceblock_limit s) (traceblock_next s)
    (did_wrap_around s) (kutrace_pid_filter s) (cursors s).

(** ** Well-formed allocator states

    [wf n s]: the arena of [s] is a whole number of blocks, at least two,
    between [traceblock_limit] and [traceblock_high]; the frontier is on a
    block boundary at or below [traceblock_high]; each CPU either owns no
    block or has its limit at the end of a block of the arena and its
    cursor at or above the start of that block; and addresses leave room
    for [n] more claims before 64-bit pointer arithmetic would wrap (each
    claim moves a cursor up by at most 128 bytes and the frontier down by
    at most one block). *)

(** [l] is the end of a block of the arena [[L, H)]. *)
Definition block_end_ok (L H l : Z) : Prop :=
  L + KUTRACEBLOCKSIZE <= l ∧ l <= H ∧ (H - l) mod KUTRACEBLOCKSIZE = 0.

Definition cursor_ok (n L H : Z) (c : Z * Z) : Prop :=
  0 <= c.1 ∧ c.1 + 128 * n <= 2 ^ 64 ∧
  (c.2 = NULL ∨ (block_end_ok L H c.2 ∧ c.2 - KUTRACEBLOCKSIZE <= c.1)).

Definition wf_view (n : Z) (v : view) : Prop :=
  0 <= n ∧
  KUTRACEBLOCKSIZE * n <= v_limit v ∧
  v_limit v + 2 * KUTRACEBLOCKSIZE <= v_high v ∧
  v_high v + 128 * n <= 2 ^ 64 ∧
  (v_high v - v_limit v) mod KUTRACEBLOCKSIZE = 0 ∧
  KUTRACEBLOCKSIZE * n <= v_next v ∧
  v_next v <= v_high v ∧
  (v_high v - v_next v) mod KUTRACEBLOCKSIZE = 0 ∧
  Forall (cursor_ok n (v_limit v) (v_high v)) (v_cursors v).

Definition wf (n : Z) (s : state) : Prop := wf_view n (view_of s).

(** The [len] words at [p] lie inside one block of the arena [[L, H)],
    blocks being counted down from [H]. *)
Definition in_one_block (L H p len : Z) : Prop :=
  ∃ k, 0 <= k ∧ L <= H - (k + 1) * KUTRACEBLOCKSIZE ∧
       H - (k + 1) * KUTRACEBLOCKSIZE <= p ∧
       p + 8 * len <= H - k * KUTRACEBLOCKSIZE.

(** A handler that uses up at most [k] units of the room that [wf]
    accounts for, and leaves the arena bounds alone. *)
Definition irq_ok (k : Z) (irq : state → state) : Prop :=
  0 <= k ∧
  ∀ n s, 0 <= n → wf (n + k) s →
    wf n (irq s) ∧ traceblock_limit (irq s) = traceblock_limit s ∧
    traceblock_high (irq s) = traceblock_high s.

(** A list of handlers, one per pass of the fast-path loop, with the room
    they and the passes use up. *)
Inductive irqs_ok : Z → list (state → state) → Prop :=
  | irqs_ok_nil : irqs_ok 0 []
  | irqs_ok_cons k c irq rest :
      irq_ok k irq → irqs_ok c rest → irqs_ok (k + 1 + c) (irq :: rest).

(** A handler that makes the claims [ops] one after the other, as the
    trace calls of an interrupt routine do. *)
Definition claims_handler (ops : list (hw * Z)) (s : state) : state :=
  foldl (fun s op => (get_claim [] op.1 op.2 s).1) s ops.

(** Room that a schedule of handlers, and the claim they interrupt, can
    use up. *)
Definition sched_cost (sched : list (list (hw * Z))) : Z :=
  foldr (fun ops c => 3 * Z.of_nat (length ops) + 1 + c) 0 sched.

(** ** Reading back *)

(** The count in the words of the specification: the word distance from
    [traceblock_high] down to [traceblock_next], or down to
    [traceblock_limit] once the arena has wrapped or overshot. *)
Definition claimed_words (s : state) : Z :=
  if did_wrap_around s || (traceblock_next s <? traceblock_limit s)
  then (traceblock_high s - traceblock_limit s) / 8
  else (traceblock_high s - traceblock_next s) / 8.

(** ** Fields of a record's first word and the merge rule *)

Definition event_of (word : Z) : Z :=
  Z.land (Z.shiftr word EVENT_SHIFT) UNSHIFTED_EVENT_MASK.
Definition delta_of (word : Z) : Z :=
  Z.land (Z.shiftr word DELTA_SHIFT) UNSHIFTED_DELTA_MASK.
Definition retval_of (word : Z) : Z :=
  Z.land (Z.shiftr word RETVAL_SHIFT) UNSHIFTED_RETVAL_MASK.

(** The test [trace_1] makes on an event code before it tries to merge. *)
Definition is_return_event (event : Z) : bool :=
  negb (Z.land event UNSHIFTED_EVENT_RETURN_BIT =? 0)
  && negb (Z.land event UNSHIFTED_EVENT_HAS_RETURN_MASK =? 0).

(** The word [trace_1] builds from an event code and an argument. *)
Definition event_arg (event arg : Z) : Z :=
  Z.lor (u64 (Z.shiftl event EVENT_SHIFT)) (Z.land arg 0xffffffff).

(** Ticks between the 20-bit time stamp of [prior_word] and now, a
    difference of zero counted as 1. *)
Definition ticks_since (h : hw) (prior_word : Z) : Z :=
  let d := Z.land (u64 (hw_now h - Z.shiftr prior_word TIMESTAMP_SHIFT))
             UNSHIFTED_TIMESTAMP_MASK in
  if d =? 0 then 1 else d.

(** When a return event with a value in 0..127 is merged: a prior entry
    exists, its event code differs from the return's exactly in the return
    bit, its delta and retval fields are still zero, and at most 255 ticks
    have passed. *)
Definition merge_rule (h : hw) (event : Z) (s : state) : bool :=
  let prior := get_prior h s in
  negb (prior =? NULL)
  && (Z.lxor (event_of (peek prior s)) event =? UNSHIFTED_EVENT_RETURN_BIT)
  && (delta_of (peek prior s) =? 0) && (retval_of (peek prior s) =? 0)
  && (ticks_since h (peek prior s) <=? MAX_DELTA_VALUE).

(** ** Sessions run through the control surface *)

(** The twelve words at the front of the very first block. *)
Definition first_block_header (h : hw) (s : state) : list Z :=
  let stamp :=
    Z.lor (hw_block_time h)
      (Z.land (prior_block_init_counter s) kCounterWrapMask) in
  let stamp :=
    if stamp <? prior_block_init_counter s
    then u64 (stamp + kCounterWrapIncrease) else stamp in
  let flags := 0 in
  let flags :=
    if do_ipc s then Z.lor flags (u64 (Z.shiftl IPC_Flag FLAGS_SHIFT))
    else flags in
  let flags :=
    if do_wrap s then Z.lor flags (u64 (Z.shiftl WRAP_Flag FLAGS_SHIFT))
    else flags in
  [ Z.lor (Z.land stamp FULL_TIMESTAMP_MASK)
          (u64 (Z.shiftl (Z.of_nat (hw_cpu h)) CPU_NUMBER_SHIFT));
    flags; 0; 0; 0; 0; 0; 0;
    u64 (hw_pid h); 0;
    le_bytes (take 8 (hw_comm h)); le_bytes (take 8 (drop 8 (hw_comm h))) ].

(** A list of commands, each with its argument and the machine readings
    at that moment, run one after the other with no interrupt. *)
Fixpoint run_commands (cmds : list (command * Z * hw)) (s : state)
    : option state :=
  match cmds with
  | [] => Some s
  | c :: cmds' =>
      match kutrace_control [] c.2 None c.1.1 c.1.2 s with
      | Some (s', _) => run_commands cmds' s'
      | None => None
      end
  end.

(** The value a command returns. *)
Definition query (cmd : command) (arg : Z) (h : hw) (s : state) : option Z :=
  snd <$> kutrace_control [] h None cmd arg s.

(** Reset, On, the single-word inserts [ins] (word and the machine
    readings at that insert), Off, Flush. *)
Definition session (h : hw) (flags : Z) (ins : list (Z * hw))
    : list (command * Z * hw) :=
  [(KUTRACE_CMD_RESET, flags, h); (KUTRACE_CMD_ON, 0, h)]
  ++ map (fun wi => (KUTRACE_CMD_INSERT1, wi.1, wi.2)) ins
  ++ [(KUTRACE_CMD_OFF, 0, h); (KUTRACE_CMD_FLUSH, 0, h)].

(** The word [insert_1] stores for [arg1] at time [hw_now h]. *)
Definition stamped (wi : Z * hw) : Z :=
  Z.lor wi.1 (u64 (Z.shiftl (hw_now wi.2) TIMESTAMP_SHIFT)).

(** The view of a 2-MiB arena at [base] after Reset(0) and On, and after
    one CPU has put [k] single words into the first block. *)
Definition armed_view (base : Z) (nc : nat) : view :=
  mk_view true false false 2 base (base + 2097152) base (base + 2097152)
    false (replicate 1024 0) (replicate nc (NULL, NULL)).

Definition filling_view (base : Z) (nc cpu : nat) (k : Z) : view :=
  mk_view true false false 2 base (base + 2097152) base (base + 2031616)
    false (replicate 1024 0)
    (<[cpu := (base + 2031616 + 96 + 8 * k, base + 2097152)]>
       (replicate nc (NULL, NULL))).

(** Header of the first block of a session opened right after
    [do_reset(0)] by the insert that read [h0]. *)
Definition session_header (h0 : hw) : list Z :=
  [ Z.lor (Z.land (hw_block_time h0) FULL_TIMESTAMP_MASK)
          (u64 (Z.shiftl (Z.of_nat (hw_cpu h0)) CPU_NUMBER_SHIFT));
    0; 0; 0; 0; 0; 0; 0;
    u64 (hw_pid h0); 0;
    le_bytes (take 8 (hw_comm h0)); le_bytes (take 8 (drop 8 (hw_comm h0))) ].

(** ** A worked machine *)

Definition ex_base : Z := 0xffffffc800000000.

Definition ex_comm : list Byte.byte :=
  [Byte.x73; Byte.x68; Byte.x00; Byte.x00; Byte.x00; Byte.x00; Byte.x00;
   Byte.x00; Byte.x00; Byte.x00; Byte.x00; Byte.x00; Byte.x00; Byte.x00;
   Byte.x00; Byte.x00].

(** The module as [kutrace_mod_init] leaves it with [tracemb = 2] on a
    two-CPU machine, before its [do_reset(0)]. *)
Definition ex_loaded : state :=
  mk_state false false false 2 ex_base NULL NULL NULL false 0
    (replicate 1024 0) [null_tb; null_tb] ∅.

(** CPU 0 running task 42 ("sh") at time [t]. *)
Definition ex_hw (t : Z) : hw := mk_hw 0 t t 0 42 ex_comm.

Definition ex_reset : state := (do_reset 0 ex_loaded).1.
Definition ex_on : state := (do_trace_on ex_reset).1.

(** A call (event 0x800) at time 100, then its return (event 0xa00,
    value 3) at time 150. *)
Definition ex_called : state :=
  default ex_on (trace_1 [] (ex_hw 100) 0x800 0 ex_on).
Definition ex_returned : state :=
  default ex_called (trace_1 [] (ex_hw 150) 0xa00 3 ex_called).

(** Ten single-word records, events 0x201 .. 0x20a, at times 101 .. 110. *)
Definition ex_ins : list (Z * hw) :=
  map (fun i => (Z.shiftl (0x200 + i) EVENT_SHIFT, ex_hw (100 + i)))
      (seqZ 1 10).

(** The state after Reset(0), On, those ten inserts, Off and Flush. *)
Definition ex_flushed : state :=
  default ex_loaded (run_commands (session (ex_hw 200) 0 ex_ins) ex_loaded).

(** One claim made, so that CPU 0 owns the first block. *)
Definition ex_claimed : state := (get_claim [] (ex_hw 100) 1 ex_on).1.

(** An interrupt that rolls CPU 0 over to a fresh block. *)
Definition ex_roll (s : state) : state :=
  (really_get_slow_claim (ex_hw 101) 1 s).1.

(** The arena used up: thirty-two blocks opened, none left. *)
Definition ex_full : state :=
  Nat.iter 32 (fun s => (really_get_slow_claim (ex_hw 100) 8 s).1) ex_on.

(** IPC tracing ([DO_IPC]) armed on the worked machine. *)
Definition ex_ipc : state := (do_trace_on (do_reset DO_IPC ex_loaded).1).1.

(** * Proofs *)

Ltac Zify.zify_post_hook ::= Z.div_mod_to_equations.

Ltac p64 := change (2 ^ 64) with 18446744073709551616 in *.

(** ** Machine arithmetic and record lengths *)

Lemma land_ones_mod x k : 0 <= k -> Z.land x (2 ^ k - 1) = x mod 2 ^ k.
Proof.
  intros. rewrite <- Z.land_ones by lia. f_equal. rewrite Z.ones_equiv. lia.
Qed.

Lemma entry_len_range w : 0 <= entry_len w <= 15.
Proof.
  unfold entry_len.
  repeat case_match; try lia.
  change EVENT_LENGTH_FIELD_MASK with (2 ^ 4 - 1).
  rewrite land_ones_mod by lia. lia.
Qed.

Lemma s32_small x : - 2 ^ 31 <= x < 2 ^ 31 -> s32 x = x.
Proof. unfold s32. intros. case_match; lia. Qed.

Lemma is_bad_len_true len : ¬ (1 <= len <= 8) -> is_bad_len len = true.
Proof.
  unfold is_bad_len. intros.
  destruct (Z.ltb_spec len 1), (Z.ltb_spec 8 len); simpl; auto; lia.
Qed.

Lemma is_bad_len_false len : 1 <= len <= 8 -> is_bad_len len = false.
Proof.
  unfold is_bad_len. intros.
  destruct (Z.ltb_spec len 1), (Z.ltb_spec 8 len); simpl; auto; lia.
Qed.

Lemma blocksize_val : KUTRACEBLOCKSIZE = 65536.
Proof. reflexivity. Qed.

Lemma blocksize64_val : KUTRACEBLOCKSIZEU64 = 8192.
Proof. reflexivity. Qed.

(** ** What the block initializer leaves alone *)

Lemma view_poke p v s : view_of (poke p v s) = view_of s.
Proof. reflexivity. Qed.

Lemma view_set_mem m s : view_of (set_mem m s) = view_of s.
Proof. reflexivity. Qed.

Lemma view_set_prior_block_init_counter c s :
  view_of (set_prior_block_init_counter c s) = view_of s.
Proof. reflexivity. Qed.

Lemma view_zero_at p idx s : view_of (zero_at p idx s) = view_of s.
Proof.
  revert s. induction idx as [|i idx IH]; intros s; [reflexivity|].
  simpl. rewrite IH. reflexivity.
Qed.

Lemma cursors_set_tb_same cpu tb s :
  cursor tb = cursor (tb_of s cpu) →
  cursors (set_tb cpu tb s) = cursors s.
Proof.
  intros Hc. unfold cursors, set_tb, tb_of in *. simpl.
  rewrite list_fmap_insert.
  destruct (per_cpu s !! cpu) as [tb0|] eqn:E; simpl in Hc.
  - rewrite Hc. apply list_insert_id. by rewrite list_lookup_fmap, E.
  - apply list_insert_ge. rewrite length_fmap. by apply lookup_ge_None.
Qed.

Lemma view_set_tb_same cpu tb s :
  cursor tb = cursor (tb_of s cpu) →
  view_of (set_tb cpu tb s) = view_of s.
Proof.
  intros Hc. unfold view_of. rewrite (cursors_set_tb_same _ _ _ Hc). reflexivity.
Qed.

Lemma cursor_tb_of s cpu :
  cursor (tb_of s cpu) = default (NULL, NULL) (cursors s !! cpu).
Proof.
  unfold tb_of, cursors. rewrite list_lookup_fmap.
  by destruct (per_cpu s !! cpu).
Qed.

Lemma initialize_trace_block_view h p first s :
  view_of (fst (initialize_trace_block h p first s)) = view_of s.
Proof.
  unfold initialize_trace_block. cbv zeta.
  destruct first; simpl fst;
    (match goal with |- context [if ?c then set_tb _ _ _ else _] => destruct c end);
    rewrite ?view_set_tb_same by reflexivity;
    rewrite ?view_zero_at, ?view_poke, ?view_zero_at, ?view_poke; reflexivity.
Qed.

Lemma initialize_trace_block_claim h p first s :
  snd (initialize_trace_block h p first s)
  = ptr_add (ptr_add p (if first then 8 else 2)) 4.
Proof. unfold initialize_trace_block. cbv zeta. by destruct first. Qed.

(** ** Well-formed allocator states *)

Ltac vsimpl :=
  cbn [v_tracing v_ipc v_wrap v_mb v_base v_high v_limit v_next v_wrapped
       v_filter v_cursors view_of fst snd] in *.

Ltac norm :=
  unfold ptr_add, ptr_sub, claim_bytes, u64, NULL in *;
  rewrite ?blocksize_val, ?blocksize64_val in *;
  change (2 ^ 64) with 18446744073709551616 in *.

Lemma cursor_ok_mono n m L H c : 0 <= n <= m → cursor_ok m L H c → cursor_ok n L H c.
Proof. unfold cursor_ok. intros ? (? & ? & ?). split_and!; auto; lia. Qed.

Lemma wf_mono n m s : 0 <= n <= m → wf m s → wf n s.
Proof.
  unfold wf, wf_view. rewrite blocksize_val. intros ? (?&?&?&?&?&?&?&?&HF).
  split_and!; try lia.
  eapply Forall_impl; [exact HF|]. intros c. by apply cursor_ok_mono.
Qed.

Lemma wf_same_view n s s' : view_of s = view_of s' → wf n s → wf n s'.
Proof.
  intros Hv. unfold wf. by rewrite Hv.
Qed.

Lemma cursors_set_tb cpu tb s :
  cursors (set_tb cpu tb s) = <[cpu := cursor tb]> (cursors s).
Proof. unfold cursors, set_tb. simpl. by rewrite list_fmap_insert. Qed.

Lemma set_tb_twice cpu tb1 tb2 s :
  set_tb cpu tb2 (set_tb cpu tb1 s) = set_tb cpu tb2 s.
Proof. unfold set_tb. simpl. by rewrite list_insert_insert_eq. Qed.

Lemma view_set_tb cpu tb s :
  view_of (set_tb cpu tb s)
  = mk_view (kutrace_tracing s) (do_ipc s) (do_wrap s) (tracemb s)
      (tracebase s) (traceblock_high s) (traceblock_limit s)
      (traceblock_next s) (did_wrap_around s) (kutrace_pid_filter s)
      (<[cpu := cursor tb]> (cursors s)).
Proof. unfold view_of. by rewrite cursors_set_tb. Qed.

Lemma tb_of_cursor_ok n s cpu :
  wf n s → cursor_ok n (traceblock_limit s) (traceblock_high s) (cursor (tb_of s cpu)).
Proof.
  intros (?&?&?&?&?&?&?&?&HF). vsimpl. rewrite cursor_tb_of.
  destruct (cursors s !! cpu) as [c|] eqn:E; simpl.
  - eapply Forall_lookup_1; eauto.
  - unfold cursor_ok. simpl. norm. split; [lia|]. split; [lia|]. by left.
Qed.

Lemma Forall_insert_in {A} (P : A → Prop) l i x :
  Forall P l → (i < length l → P x)%nat → Forall P (<[i := x]> l).
Proof.
  intros HF Hx. destruct (decide (i < length l)%nat).
  - apply Forall_insert; auto.
  - rewrite list_insert_ge by lia. done.
Qed.

Lemma tb_of_set_tb_in cpu tb s :
  (cpu < length (per_cpu s))%nat → tb_of (set_tb cpu tb s) cpu = tb.
Proof.
  intros. unfold tb_of, set_tb. simpl. by rewrite list_lookup_insert_eq.
Qed.

Lemma tb_of_set_tb_out cpu tb s :
  ¬ (cpu < length (per_cpu s))%nat → set_tb cpu tb s = s.
Proof.
  intros. unfold set_tb. rewrite list_insert_ge by lia. by destruct s.
Qed.

Lemma atomic_add_spec n b cpu s :
  0 <= n → wf (n + 1) s → 0 <= b <= 64 →
  let r := atomic_add_return b cpu s in
  wf n r.1 ∧ r.2 = tb_next (tb_of s cpu) + b ∧
  traceblock_limit r.1 = traceblock_limit s ∧
  traceblock_high r.1 = traceblock_high s ∧
  tb_limit (tb_of r.1 cpu) = tb_limit (tb_of s cpu).
Proof.
  intros Hn Hwf Hb. pose proof (tb_of_cursor_ok _ _ cpu Hwf) as (Hc1 & Hc2 & Hc3).
  unfold cursor in *; simpl in *.
  unfold atomic_add_return. cbv zeta. simpl.
  assert (Hu : u64 (tb_next (tb_of s cpu) + b) = tb_next (tb_of s cpu) + b).
  { destruct Hwf as (?&_). norm. rewrite Z.mod_small; lia. }
  rewrite Hu. split; [|split; [done|split; [done|split; [done|]]]].
  - destruct Hwf as (?&?&?&?&?&?&?&?&HF). vsimpl.
    unfold wf, wf_view. rewrite view_set_tb. vsimpl.
    split_and!; try (norm; lia).
    apply Forall_insert_in.
    + eapply Forall_impl; [exact HF|]. intros c. apply cursor_ok_mono. lia.
    + intros _. unfold cursor_ok, cursor; simpl. split_and!; try (norm; lia).
      destruct Hc3 as [->|[? ?]]; [by left|right]. split; [done|lia].
  - destruct (decide (cpu < length (per_cpu s))%nat).
    + by rewrite tb_of_set_tb_in.
    + by rewrite tb_of_set_tb_out.
Qed.

(** What [open_block] returns and leaves behind, in terms of the state it
    is entered with. *)
Lemma open_block_view h len first s :
  let r := open_block h len first s in
  let p := ptr_add (ptr_add (traceblock_next s) (if first then 8 else 2)) 4 in
  r.2 = p ∧
  view_of r.1
  = mk_view (kutrace_tracing s) (do_ipc s) (do_wrap s) (tracemb s)
      (tracebase s) (traceblock_high s) (traceblock_limit s)
      (traceblock_next s) (did_wrap_around s) (kutrace_pid_filter s)
      (<[hw_cpu h := (ptr_add p len,
                      ptr_add (traceblock_next s) KUTRACEBLOCKSIZEU64)]>
         (cursors s)).
Proof.
  unfold open_block.
  pose proof (initialize_trace_block_view h (traceblock_next s) first s) as Hv.
  pose proof (initialize_trace_block_claim h (traceblock_next s) first s) as Hc.
  destruct (initialize_trace_block h (traceblock_next s) first s) as [s1 p1].
  simpl in Hv, Hc. subst p1. cbv zeta. simpl fst. simpl snd. split; [done|].
  rewrite set_tb_twice, view_set_tb.
  pose proof (f_equal v_tracing Hv). pose proof (f_equal v_ipc Hv).
  pose proof (f_equal v_wrap Hv). pose proof (f_equal v_mb Hv).
  pose proof (f_equal v_base Hv). pose proof (f_equal v_high Hv).
  pose proof (f_equal v_limit Hv). pose proof (f_equal v_next Hv) as En.
  pose proof (f_equal v_wrapped Hv). pose proof (f_equal v_filter Hv).
  pose proof (f_equal v_cursors Hv) as Ec. simpl in *.
  f_equal; try done.
  rewrite Ec. 
  destruct (decide (hw_cpu h < length (per_cpu s1))%nat) as [Hin|Hout].
  - rewrite tb_of_set_tb_in by done. unfold cursor. simpl. by rewrite En.
  - assert (length (cursors s) ≤ hw_cpu h)%nat.
    { rewrite <- Ec. unfold cursors. rewrite length_map. lia. }
    by rewrite !list_insert_ge.
Qed.

Lemma u64_small x : 0 <= x < 2 ^ 64 → u64 x = x.
Proof. intros. unfold u64. by apply Z.mod_small. Qed.

Lemma ptr_add_small p k : 0 <= p + 8 * k < 2 ^ 64 → ptr_add p k = p + 8 * k.
Proof. intros. unfold ptr_add. by apply u64_small. Qed.

Lemma ptr_sub_small p k : 0 <= p - 8 * k < 2 ^ 64 → ptr_sub p k = p - 8 * k.
Proof. intros. unfold ptr_sub. by apply u64_small. Qed.

(** Opening a block keeps the state well formed and returns a claim
    inside the block opened. *)
Lemma really_get_slow_claim_ok n h len s :
  0 <= n → wf (n + 1) s → 1 <= len <= 8 →
  let r := really_get_slow_claim h len s in
  wf n r.1 ∧
  traceblock_limit r.1 = traceblock_limit s ∧
  traceblock_high r.1 = traceblock_high s ∧
  (r.2 ≠ NULL → in_one_block (traceblock_limit s) (traceblock_high s) r.2 len).
Proof.
  intros Hn Hwf Hlen.
  destruct Hwf as (_&HL&HH&Htop&Hal&HN&HNH&HNal&HF). vsimpl.
  unfold really_get_slow_claim. cbv zeta. simpl.
  set (first := traceblock_next s =? traceblock_high s).
  assert (HN' : ptr_sub (traceblock_next s) KUTRACEBLOCKSIZEU64
                = traceblock_next s - 65536).
  { norm. rewrite Z.mod_small; lia. }
  rewrite HN'.
  assert (HF' : Forall (cursor_ok n (traceblock_limit s) (traceblock_high s))
                  (cursors s)).
  { eapply Forall_impl; [exact HF|]. intros c. apply cursor_ok_mono. lia. }
  assert (Hopen : ∀ s0 N, view_of s0 = mk_view (kutrace_tracing s0) (do_ipc s0)
              (do_wrap s0) (tracemb s0) (tracebase s0) (traceblock_high s)
              (traceblock_limit s) N (did_wrap_around s0)
              (kutrace_pid_filter s0) (cursors s) →
            traceblock_limit s <= N → N + 65536 <= traceblock_high s →
            (traceblock_high s - N) mod 65536 = 0 →
            let r := open_block h len first s0 in
            wf n r.1 ∧ traceblock_limit r.1 = traceblock_limit s ∧
            traceblock_high r.1 = traceblock_high s ∧
            (r.2 ≠ NULL →
             in_one_block (traceblock_limit s) (traceblock_high s) r.2 len)).
  { intros s0 N Hv0 HNL HNH0 HNal0.
    pose proof (f_equal v_high Hv0) as E1. pose proof (f_equal v_limit Hv0) as E2.
    pose proof (f_equal v_next Hv0) as E3. pose proof (f_equal v_cursors Hv0) as E4.
    simpl in E1, E2, E3, E4.
    pose proof (open_block_view h len first s0) as (Hp & Hv). simpl in Hp, Hv.
    rewrite E1, E2, E3, E4 in Hv. rewrite E3 in Hp.
    set (hdr := if first then 8 else 2) in *.
    assert (Hhdr : hdr = 8 ∨ hdr = 2) by (unfold hdr; destruct first; auto).
    assert (Hp' : (open_block h len first s0).2 = N + 8 * hdr + 32).
    { rewrite Hp. norm. rewrite (Z.mod_small (N + 8 * hdr)) by lia.
      rewrite Z.mod_small; lia. }
    assert (Hnx : ptr_add (ptr_add (ptr_add N hdr) 4) len
                  = N + 8 * hdr + 32 + 8 * len).
    { norm. rewrite (Z.mod_small (N + 8 * hdr)) by lia.
      rewrite (Z.mod_small (N + 8 * hdr + 8 * 4)) by lia.
      rewrite Z.mod_small; lia. }
    assert (Hlm : ptr_add N KUTRACEBLOCKSIZEU64 = N + 65536).
    { norm. rewrite Z.mod_small; lia. }
    rewrite Hnx, Hlm in Hv.
    cbv zeta. split_and!.
    - unfold wf. rewrite Hv. unfold wf_view. simpl.
      split_and!; try (norm; lia).
      apply Forall_insert_in; [done|]. intros _.
      unfold cursor_ok, block_end_ok. simpl. norm.
      split_and!; lia.
    - pose proof (f_equal v_limit Hv). done.
    - pose proof (f_equal v_high Hv). done.
    - intros _. rewrite Hp'. unfold in_one_block. norm.
      exists ((traceblock_high s - (N + 65536)) / 65536).
      split_and!; lia. }
  destruct (Z.ltb_spec (traceblock_next s - 65536) (traceblock_limit s)).
  - destruct (do_wrap s) eqn:Hw.
    + rewrite ptr_sub_small by (norm; lia).
      apply Hopen with (N := traceblock_high s - 8 * (2 * KUTRACEBLOCKSIZEU64));
        try reflexivity; norm; lia.
    + simpl. split_and!; try done.
      unfold wf, wf_view. simpl. norm. split_and!; try lia. done.
  - apply Hopen with (N := traceblock_next s - 65536); try reflexivity; norm; lia.
Qed.

Lemma claim_bytes_val len : 1 <= len <= 8 → claim_bytes len = 8 * len.
Proof. intros. unfold claim_bytes. rewrite u64_small; norm; lia. Qed.

Lemma block_of_cursor L H l p len :
  block_end_ok L H l → l - KUTRACEBLOCKSIZE <= p → p + 8 * len < l →
  in_one_block L H p len.
Proof.
  unfold block_end_ok, in_one_block. norm. intros (?&?&?) ? ?.
  exists ((H - l) / 65536). split_and!; lia.
Qed.

Lemma get_slow_claim_ok n h len s :
  0 <= n → wf (n + 2) s → 1 <= len <= 8 →
  let r := get_slow_claim h len s in
  wf n r.1 ∧
  traceblock_limit r.1 = traceblock_limit s ∧
  traceblock_high r.1 = traceblock_high s ∧
  (r.2 ≠ NULL → in_one_block (traceblock_limit s) (traceblock_high s) r.2 len).
Proof.
  intros Hn Hwf Hlen. unfold get_slow_claim.
  rewrite is_bad_len_false by done.
  pose proof (tb_of_cursor_ok _ _ (hw_cpu h) Hwf) as (Hc1 & Hc2 & Hc3).
  unfold cursor in Hc1, Hc2, Hc3. vsimpl.
  replace (n + 2) with ((n + 1) + 1) in Hwf by lia.
  pose proof (atomic_add_spec (n + 1) (claim_bytes len) (hw_cpu h) s
                ltac:(lia) Hwf) as Hadd.
  rewrite claim_bytes_val in Hadd by done.
  specialize (Hadd ltac:(lia)). cbv zeta in Hadd.
  rewrite claim_bytes_val by done.
  destruct (atomic_add_return (8 * len) (hw_cpu h) s) as [s1 v].
  vsimpl. destruct Hadd as (Hwf1 & -> & HL1 & HH1 & _).
  assert (Hm : ptr_sub (tb_next (tb_of s (hw_cpu h)) + 8 * len) len
               = tb_next (tb_of s (hw_cpu h))).
  { rewrite ptr_sub_small; norm; lia. }
  rewrite Hm.
  rewrite ptr_add_small by (norm; lia).
  destruct (Z.leb_spec (tb_limit (tb_of s (hw_cpu h)))
              (tb_next (tb_of s (hw_cpu h)) + 8 * len)) as [Hge|Hlt];
    [|destruct (Z.eqb_spec (tb_limit (tb_of s (hw_cpu h))) NULL) as [H0|H0]];
    cbn [orb].
  1,2: pose proof (really_get_slow_claim_ok n h len s1 Hn Hwf1 Hlen) as Hr;
       cbv zeta in Hr; rewrite HL1, HH1 in Hr; exact Hr.
  vsimpl. split_and!; try done.
  - apply wf_mono with (n + 1); [lia|done].
  - intros _. destruct Hc3 as [?|[Hb Hlo]]; [done|].
    eapply block_of_cursor; eauto.
Qed.

(** ** Interrupt handlers that keep the allocator well formed *)

Lemma irqs_ok_nonneg c irqs : irqs_ok c irqs → 0 <= c.
Proof. induction 1 as [|k c irq rest [Hk _] _ IH]; lia. Qed.

(** What the fast-path loop hands over: either no limit, or a limit that
    ends a block of the arena with the claim at or above that block's
    start. *)
Lemma get_claim_fast_ok c irqs :
  irqs_ok c irqs →
  ∀ n len cpu m0 l0 s,
  0 <= n → 1 <= len <= 8 → wf (n + c + 1) s →
  l0 = NULL ∨ l0 = tb_limit (tb_of s cpu) →
  let r := get_claim_fast irqs len cpu m0 l0 s in
  wf n r.1.1 ∧
  traceblock_limit r.1.1 = traceblock_limit s ∧
  traceblock_high r.1.1 = traceblock_high s ∧
  (r.2 = NULL ∨
   (block_end_ok (traceblock_limit s) (traceblock_high s) r.2 ∧
    r.2 - KUTRACEBLOCKSIZE <= r.1.2 ∧ 0 <= r.1.2 ∧ r.1.2 + 64 < 2 ^ 64)).
Proof.
  intros Hirqs. induction Hirqs as [|k c irq rest Hirq Hrest IH];
    intros n len cpu m0 l0 s Hn Hlen Hwf Hl0.
  - (* no handler left *)
    cbn [get_claim_fast].
    destruct (Z.eqb_spec (tb_limit (tb_of s cpu)) NULL) as [E|E].
    { vsimpl. split_and!; try done.
      - apply wf_mono with (n + 0 + 1); [lia|done].
      - left. destruct Hl0; congruence. }
    pose proof (tb_of_cursor_ok _ _ cpu Hwf) as (Hc1 & Hc2 & Hc3).
    unfold cursor in Hc1, Hc2, Hc3. vsimpl.
    replace (n + 0 + 1) with (n + 1) in * by lia.
    pose proof (atomic_add_spec n (claim_bytes len) cpu s Hn Hwf) as Hadd.
    rewrite claim_bytes_val in Hadd by done.
    specialize (Hadd ltac:(lia)). cbv zeta in Hadd.
    rewrite claim_bytes_val by done.
    destruct (atomic_add_return (8 * len) cpu s) as [s1 v].
    vsimpl. destruct Hadd as (Hwf1 & -> & HL1 & HH1 & Hlim).
    rewrite ptr_sub_small by (norm; lia).
    replace (tb_next (tb_of s cpu) + 8 * len - 8 * len)
      with (tb_next (tb_of s cpu)) by lia.
    rewrite Hlim, Z.eqb_refl. vsimpl.
    split_and!; try done. right.
    destruct Hc3 as [?|[Hb Hlo]]; [done|]. split_and!; try done. norm; lia.
  - (* a handler runs in the window *)
    cbn [get_claim_fast].
    pose proof (irqs_ok_nonneg _ _ Hrest) as Hc0.
    destruct Hirq as [Hk Hirq].
    destruct (Z.eqb_spec (tb_limit (tb_of s cpu)) NULL) as [E|E].
    { vsimpl. split_and!; try done.
      - apply wf_mono with (n + (k + 1 + c) + 1); [lia|done].
      - left. destruct Hl0; congruence. }
    pose proof (tb_of_cursor_ok _ _ cpu Hwf) as (Hc1 & Hc2 & Hc3).
    unfold cursor in Hc1, Hc2, Hc3. vsimpl.
    replace (n + (k + 1 + c) + 1) with ((n + c + 1 + k) + 1) in * by lia.
    pose proof (atomic_add_spec (n + c + 1 + k) (claim_bytes len) cpu s
                  ltac:(lia) Hwf) as Hadd.
    rewrite claim_bytes_val in Hadd by done.
    specialize (Hadd ltac:(lia)). cbv zeta in Hadd.
    rewrite claim_bytes_val by done.
    destruct (atomic_add_return (8 * len) cpu s) as [s1 v].
    vsimpl. destruct Hadd as (Hwf1 & -> & HL1 & HH1 & Hlim).
    rewrite ptr_sub_small by (norm; lia).
    replace (tb_next (tb_of s cpu) + 8 * len - 8 * len)
      with (tb_next (tb_of s cpu)) by lia.
    destruct (Hirq (n + c + 1) s1 ltac:(lia) Hwf1) as (Hwf2 & HL2 & HH2).
    rewrite HL1 in HL2. rewrite HH1 in HH2.
    pose proof (tb_of_cursor_ok _ _ cpu Hwf2) as (Hd1 & Hd2 & Hd3).
    unfold cursor in Hd1, Hd2, Hd3. vsimpl. rewrite HL2, HH2 in Hd3.
    set (m := tb_next (tb_of s cpu)) in *.
    set (la := tb_limit (tb_of (irq s1) cpu)) in *.
    assert (Hm64 : m + 64 < 2 ^ 64) by (norm; lia).
    destruct (Z.eqb_spec (tb_limit (tb_of s cpu)) la) as [Eq|Ne].
    { vsimpl. split_and!; try done.
      - apply wf_mono with (n + c + 1); [lia|done].
      - right. destruct Hc3 as [?|[Hb Hlo]]; [done|].
        rewrite <- Eq. split_and!; done. }
    destruct (Z.ltb_spec m la) as [Hlt|Hge]; cbn [andb].
    2: { pose proof (IH n len cpu m la (irq s1) Hn Hlen Hwf2 (or_intror eq_refl))
           as Hr. cbv zeta in Hr. rewrite HL2, HH2 in Hr. exact Hr. }
    destruct Hd3 as [Hz|[Hb Hlo]]; [norm; lia|].
    assert (Hps : ptr_sub la KUTRACEBLOCKSIZEU64 = la - KUTRACEBLOCKSIZE).
    { destruct Hb as (?&?&?). destruct Hwf2 as (?&?&?). vsimpl.
      rewrite ptr_sub_small; norm; lia. }
    rewrite Hps.
    destruct (Z.leb_spec (la - KUTRACEBLOCKSIZE) m) as [Hin|Hout].
    { vsimpl. split_and!; try done.
      - apply wf_mono with (n + c + 1); [lia|done].
      - right. split_and!; done. }
    pose proof (IH n len cpu m la (irq s1) Hn Hlen Hwf2 (or_intror eq_refl))
      as Hr. cbv zeta in Hr. rewrite HL2, HH2 in Hr. exact Hr.
Qed.

Lemma get_claim_ok c irqs n h len s :
  irqs_ok c irqs → 0 <= n → 1 <= len <= 8 → wf (n + c + 3) s →
  let r := get_claim irqs h len s in
  wf n r.1 ∧
  traceblock_limit r.1 = traceblock_limit s ∧
  traceblock_high r.1 = traceblock_high s ∧
  (r.2 ≠ NULL → in_one_block (traceblock_limit s) (traceblock_high s) r.2 len).
Proof.
  intros Hirqs Hn Hlen Hwf. unfold get_claim.
  rewrite is_bad_len_false by done.
  replace (n + c + 3) with ((n + 2) + c + 1) in Hwf by lia.
  pose proof (get_claim_fast_ok c irqs Hirqs (n + 2) len (hw_cpu h) NULL NULL s
                ltac:(lia) Hlen Hwf (or_introl eq_refl)) as Hf.
  cbv zeta in Hf.
  destruct (get_claim_fast irqs len (hw_cpu h) NULL NULL s) as [[s1 m] l].
  vsimpl. destruct Hf as (Hwf1 & HL1 & HH1 & Hl).
  destruct (Z.leb_spec l (ptr_add m len)) as [Hslow|Hfast].
  - pose proof (get_slow_claim_ok n h len s1 Hn Hwf1 Hlen) as Hr.
    cbv zeta in Hr. rewrite HL1, HH1 in Hr. exact Hr.
  - vsimpl. split_and!; try done.
    + apply wf_mono with (n + 2); [lia|done].
    + intros _. destruct Hl as [->|(Hb & Hlo & Hm0 & Hm64)].
      * norm. lia.
      * rewrite ptr_add_small in Hfast by (norm; lia).
        eapply block_of_cursor; eauto.
Qed.

Lemma get_claim_any_len_ok n h len s :
  0 <= n → wf (n + 3) s →
  wf n (get_claim [] h len s).1 ∧
  traceblock_limit (get_claim [] h len s).1 = traceblock_limit s ∧
  traceblock_high (get_claim [] h len s).1 = traceblock_high s.
Proof.
  intros Hn Hwf.
  destruct (decide (1 <= len <= 8)) as [Hlen|Hbad].
  - replace (n + 3) with (n + 0 + 3) in Hwf by lia.
    pose proof (get_claim_ok 0 [] n h len s irqs_ok_nil Hn Hlen Hwf) as Hr.
    cbv zeta in Hr. tauto.
  - unfold get_claim. rewrite is_bad_len_true by done. vsimpl.
    split_and!; try done. apply wf_mono with (n + 3); [lia|].
    destruct Hwf as (?&?&?&?&?&?&?&?&?). unfold wf, wf_view. vsimpl.
    split_and!; done.
Qed.

Lemma claims_handler_ok ops :
  irq_ok (3 * Z.of_nat (length ops)) (claims_handler ops).
Proof.
  split; [lia|]. induction ops as [|op ops IH]; intros n s Hn Hwf.
  - cbn [length] in Hwf. cbn [claims_handler foldl]. split_and!; try done.
    apply wf_mono with (n + 3 * Z.of_nat 0); [lia|done].
  - change (claims_handler (op :: ops) s)
      with (claims_handler ops (get_claim [] op.1 op.2 s).1).
    replace (n + 3 * Z.of_nat (length (op :: ops)))
      with ((n + 3 * Z.of_nat (length ops)) + 3) in Hwf
      by (cbn [length]; lia).
    destruct (get_claim_any_len_ok (n + 3 * Z.of_nat (length ops)) op.1 op.2 s
                ltac:(lia) Hwf) as (H1 & H2 & H3).
    destruct (IH n _ Hn H1) as (H4 & H5 & H6).
    split_and!; [exact H4|by rewrite H5|by rewrite H6].
Qed.

Lemma sched_ok sched :
  irqs_ok (sched_cost sched) (map claims_handler sched).
Proof.
  induction sched as [|ops sched IH]; cbn [sched_cost foldr map].
  - constructor.
  - fold (sched_cost sched). constructor; [apply claims_handler_ok|done].
Qed.

(** Reset establishes [wf]; Flush keeps it. *)

Lemma do_reset_wf flags s n :
  0 <= n → 1 <= tracemb s → KUTRACEBLOCKSIZE * n <= tracebase s →
  tracebase s + tracemb s * 2 ^ 20 + 128 * n < 2 ^ 64 →
  wf n (do_reset flags s).1.
Proof.
  intros Hn Hmb Hlo Hhi. rewrite blocksize_val in Hlo.
  change (2 ^ 20) with 1048576 in Hhi. p64.
  unfold do_reset. cbv zeta. cbn [fst].
  rewrite !Z.shiftl_mul_pow2 by lia.
  change (2 ^ 20) with 1048576. change (2 ^ (20 - 3)) with 131072.
  rewrite (u64_small (tracebase s + tracemb s * 1048576)) by (p64; lia).
  rewrite (u64_small (tracebase s + tracemb s * 131072)) by (p64; lia).
  unfold wf, wf_view, view_of, cursors.
  cbn [v_limit v_high v_next v_cursors traceblock_high traceblock_limit
       traceblock_next per_cpu].
  rewrite blocksize_val.
  assert (HF : ∀ L H, Forall (cursor_ok n L H)
                 (map cursor (map (fun _ => null_tb) (per_cpu s)))).
  { intros L H. rewrite map_map. apply Forall_forall. intros c Hc.
    apply list_elem_of_fmap in Hc as (tb & -> & _).
    unfold cursor_ok, cursor, null_tb. cbn [fst snd tb_next tb_limit].
    unfold NULL. p64. split_and!; lia. }
  destruct (negb (Z.land flags DO_IPC =? 0)); split_and!; try lia; apply HF.
Qed.

Lemma do_flush_cpus_cursor_ok n L H tbs :
  ∀ m z, 0 <= n → H + 128 * n <= 2 ^ 64 → 0 <= L →
  Forall (cursor_ok n L H) (map cursor tbs) →
  Forall (cursor_ok n L H) (map cursor (do_flush_cpus tbs m z).1.1).
Proof.
  induction tbs as [|tb tbs IH]; intros m z Hn Htop HL HF; [done|].
  cbn [map] in HF. apply Forall_cons in HF as [Htb HF].
  cbn [do_flush_cpus].
  destruct ((tb_next tb =? NULL) || (tb_limit tb =? NULL)) eqn:Hnull.
  - specialize (IH m z Hn Htop HL HF).
    destruct (do_flush_cpus tbs m z) as [[r1 r2] r3]. cbn [fst map] in *.
    by apply Forall_cons.
  - match goal with |- context [do_flush_cpus tbs ?ma ?za] =>
      specialize (IH ma za Hn Htop HL HF);
      destruct (do_flush_cpus tbs ma za) as [[r1 r2] r3] end.
    cbn [fst map] in *. apply Forall_cons. split; [|done].
    apply orb_false_elim in Hnull as [_ Hl]. apply Z.eqb_neq in Hl.
    destruct Htb as (_ & _ & [?|[(?&?&?) ?]]); [done|].
    unfold cursor_ok, block_end_ok, cursor in *.
    cbn [fst snd tb_next tb_limit tb_set_next] in *.
    rewrite blocksize_val in *. p64. split_and!; lia.
Qed.

Lemma do_flush_wf n s : wf n s → wf n (do_flush s).1.
Proof.
  intros (Hn&HL&HH&Htop&Hal&HN&HNH&HNal&HF). vsimpl.
  unfold do_flush. cbv zeta.
  change (per_cpu (set_tracing false s)) with (per_cpu s).
  change (mem (set_tracing false s)) with (mem s).
  pose proof (do_flush_cpus_cursor_ok n (traceblock_limit s)
                (traceblock_high s) (per_cpu s) (mem s) 0 Hn Htop
                ltac:(rewrite blocksize_val in HL; lia) HF) as HF'.
  destruct (do_flush_cpus (per_cpu s) (mem s) 0) as [[tbs m] z].
  unfold wf, wf_view. by split_and!.
Qed.

(** ** The claim allocator *)

Ltac fsimpl :=
  cbn [kutrace_tracing do_ipc do_wrap tracemb tracebase traceblock_high
       traceblock_limit traceblock_next did_wrap_around
       prior_block_init_counter kutrace_pid_filter per_cpu mem
       set_tracing set_traceblock_next set_did_wrap_around
       set_prior_block_init_counter set_pid_filter set_per_cpu set_mem
       poke set_tb] in *.

Lemma atomic_add_limit b cpu s :
  tb_limit (tb_of (atomic_add_return b cpu s).1 cpu) = tb_limit (tb_of s cpu).
Proof.
  unfold atomic_add_return. cbv zeta. vsimpl.
  destruct (decide (cpu < length (per_cpu s))%nat).
  - by rewrite tb_of_set_tb_in.
  - by rewrite tb_of_set_tb_out.
Qed.

(** Claim C1.  For every length [len] in 1..8, a successful claim is a
    region of [len] words inside one 64-KiB block of the arena
    [[traceblock_limit, traceblock_high)], so it crosses no block boundary.
    The state is well formed, with room for this claim and for the claims
    that the interrupt handlers of [sched] make while it is in flight.  The
    three parts are the claim as [get_claim] returns it (fast or slow
    path), as [get_slow_claim] returns it and as [really_get_slow_claim]
    returns it. *)
Theorem claim_within_one_block (sched : list (list (hw * Z))) (h : hw)
    (len : Z) (s : state)
    (Hlen : 1 <= len <= 8) (Hwf : wf (sched_cost sched + 3) s) :
  (∀ s' p, get_claim (map claims_handler sched) h len s = (s', p) →
     p ≠ NULL →
     in_one_block (traceblock_limit s) (traceblock_high s) p len ∧
     traceblock_limit s' = traceblock_limit s ∧
     traceblock_high s' = traceblock_high s) ∧
  (∀ s' p, get_slow_claim h len s = (s', p) → p ≠ NULL →
     in_one_block (traceblock_limit s) (traceblock_high s) p len) ∧
  (∀ s' p, really_get_slow_claim h len s = (s', p) → p ≠ NULL →
     in_one_block (traceblock_limit s) (traceblock_high s) p len).
Proof.
  pose proof (irqs_ok_nonneg _ _ (sched_ok sched)) as Hc.
  split_and!; intros s' p E Hp.
  - replace (sched_cost sched + 3) with (0 + sched_cost sched + 3) in Hwf by lia.
    pose proof (get_claim_ok _ _ 0 h len s (sched_ok sched) ltac:(lia) Hlen Hwf)
      as Hr.
    cbv zeta in Hr. rewrite E in Hr. vsimpl. destruct Hr as (_&?&?&Hin).
    auto.
  - assert (Hwf' : wf (0 + 2) s) by (apply wf_mono with (sched_cost sched + 3); [lia|done]).
    pose proof (get_slow_claim_ok 0 h len s ltac:(lia) Hwf' Hlen) as Hr.
    cbv zeta in Hr. rewrite E in Hr. vsimpl. destruct Hr as (_&?&?&Hin). auto.
  - assert (Hwf' : wf (0 + 1) s) by (apply wf_mono with (sched_cost sched + 3); [lia|done]).
    pose proof (really_get_slow_claim_ok 0 h len s ltac:(lia) Hwf' Hlen) as Hr.
    cbv zeta in Hr. rewrite E in Hr. vsimpl. destruct Hr as (_&?&?&Hin). auto.
Qed.

(** Claim C2.  A pass of the fast path during which a handler [irq]
    changes the CPU's limit between the atomic add and the second read of
    the limit: the claim is accepted exactly when
    [new_limit - KUTRACEBLOCKSIZE <= myclaim < new_limit]; otherwise it is
    abandoned and the pass is run again on the state the handler left.
    Whatever the loop hands over to [get_claim], the slow path is taken
    exactly when [myclaim + len >= limit]. *)
Theorem fast_path_retry_rule (irq : state → state) (rest : list (state → state))
    (len : Z) (cpu : nat) (m0 l0 : Z) (s : state) :
  let limit_item := tb_limit (tb_of s cpu) in
  let s1 := (atomic_add_return (claim_bytes len) cpu s).1 in
  let myclaim := ptr_sub (atomic_add_return (claim_bytes len) cpu s).2 len in
  let s2 := irq s1 in
  let new_limit := tb_limit (tb_of s2 cpu) in
  limit_item ≠ NULL →
  tb_limit (tb_of s1 cpu) ≠ new_limit →
  KUTRACEBLOCKSIZE <= new_limit < 2 ^ 64 →
  (new_limit - KUTRACEBLOCKSIZE <= myclaim < new_limit →
     get_claim_fast (irq :: rest) len cpu m0 l0 s = (s2, myclaim, new_limit)) ∧
  (¬ (new_limit - KUTRACEBLOCKSIZE <= myclaim < new_limit) →
     get_claim_fast (irq :: rest) len cpu m0 l0 s
     = get_claim_fast rest len cpu myclaim new_limit s2) ∧
  (∀ irqs h s' m l, 1 <= len <= 8 →
     get_claim_fast irqs len (hw_cpu h) NULL NULL s = (s', m, l) →
     get_claim irqs h len s
     = if l <=? ptr_add m len then get_slow_claim h len s' else (s', m)).
Proof.
  intros limit_item s1 myclaim s2 new_limit Hnn Hchg Hrange.
  assert (Hstep :
    get_claim_fast (irq :: rest) len cpu m0 l0 s
    = if (myclaim <? new_limit)
         && (ptr_sub new_limit KUTRACEBLOCKSIZEU64 <=? myclaim)
      then (s2, myclaim, new_limit)
      else get_claim_fast rest len cpu myclaim new_limit s2).
  { cbn [get_claim_fast]. fold limit_item.
    destruct (Z.eqb_spec limit_item NULL) as [|_]; [done|].
    unfold new_limit, s2, myclaim, s1 in *.
    rewrite atomic_add_limit in Hchg.
    destruct (atomic_add_return (claim_bytes len) cpu s) as [sa v]. vsimpl.
    destruct (Z.eqb_spec limit_item (tb_limit (tb_of (irq sa) cpu))); [done|].
    reflexivity. }
  assert (Hps : ptr_sub new_limit KUTRACEBLOCKSIZEU64
                = new_limit - KUTRACEBLOCKSIZE).
  { rewrite ptr_sub_small; norm; lia. }
  rewrite Hps in Hstep.
  split_and!.
  - intros [Hlo Hhi]. rewrite Hstep.
    destruct (Z.ltb_spec myclaim new_limit); [|lia].
    destruct (Z.leb_spec (new_limit - KUTRACEBLOCKSIZE) myclaim); [done|lia].
  - intros Hout. rewrite Hstep.
    destruct (Z.ltb_spec myclaim new_limit);
      destruct (Z.leb_spec (new_limit - KUTRACEBLOCKSIZE) myclaim);
      cbn [andb]; try done. lia.
  - intros irqs h s' m l Hlen E. unfold get_claim.
    rewrite is_bad_len_false by done. by rewrite E.
Qed.

Lemma nth_replicate_0 (n i : nat) : nth i (replicate n 0) 0 = 0.
Proof.
  revert i. induction n as [|n IH]; intros [|i]; simpl; auto.
Qed.

(** Claim C3.  When moving [traceblock_next] down by one block lands
    below [traceblock_limit]: with wraparound on, [traceblock_next] becomes
    [traceblock_high] minus two blocks, [did_wrap_around] is set and all
    64K bits of the pid filter are cleared; with wraparound off, tracing is
    turned off and NULL is returned, nothing else but the frontier having
    changed. *)
Theorem slow_claim_arena_exhausted (h : hw) (len : Z) (s : state)
    (Hfull : ptr_sub (traceblock_next s) KUTRACEBLOCKSIZEU64
             < traceblock_limit s) :
  (do_wrap s = true →
     let s' := (really_get_slow_claim h len s).1 in
     traceblock_next s'
       = ptr_sub (traceblock_high s) (2 * KUTRACEBLOCKSIZEU64) ∧
     did_wrap_around s' = true ∧
     kutrace_pid_filter s' = replicate 1024 0 ∧
     (∀ i, 0 <= i < 65536 →
        Z.testbit (nth (Z.to_nat (i / 64)) (kutrace_pid_filter s') 0)
                  (i mod 64) = false)) ∧
  (do_wrap s = false →
     really_get_slow_claim h len s
     = (set_tracing false
          (set_traceblock_next
             (ptr_sub (traceblock_next s) KUTRACEBLOCKSIZEU64) s), NULL) ∧
     kutrace_tracing (really_get_slow_claim h len s).1 = false).
Proof.
  split; intros Hw.
  - unfold really_get_slow_claim. cbv zeta. vsimpl.
    cbn [traceblock_next traceblock_limit set_traceblock_next do_wrap].
    destruct (Z.ltb_spec (ptr_sub (traceblock_next s) KUTRACEBLOCKSIZEU64)
                (traceblock_limit s)); [|lia].
    rewrite Hw.
    match goal with |- context [open_block h len ?f ?s0] =>
      pose proof (open_block_view h len f s0) as (_ & Hv) end.
    pose proof (f_equal v_next Hv) as E1.
    pose proof (f_equal v_wrapped Hv) as E2.
    pose proof (f_equal v_filter Hv) as E3.
    vsimpl. fsimpl.
    split_and!; try done.
    intros i Hi. rewrite E3, nth_replicate_0. apply Z.testbit_0_l.
  - unfold really_get_slow_claim. cbv zeta. vsimpl.
    cbn [traceblock_next traceblock_limit set_traceblock_next do_wrap].
    destruct (Z.ltb_spec (ptr_sub (traceblock_next s) KUTRACEBLOCKSIZEU64)
                (traceblock_limit s)); [|lia].
    rewrite Hw. done.
Qed.

(** ** Reading the count back *)

Lemma ptr_diff_small p q : 0 <= p - q < 2 ^ 63 → ptr_diff p q = (p - q) / 8.
Proof.
  intros. unfold ptr_diff, s64.
  change (2 ^ 63) with 9223372036854775808 in *.
  change (2 ^ 64) with 18446744073709551616 in *.
  rewrite (Z.mod_small (p - q)) by lia.
  destruct (Z.ltb_spec (p - q) 9223372036854775808); [|lia].
  rewrite Z.shiftr_div_pow2 by lia. change (2 ^ 3) with 8.
  rewrite u64_small; [done|]. change (2 ^ 64) with 18446744073709551616. lia.
Qed.

Lemma not64_bits c i : 0 <= i < 64 → Z.testbit (not64 c) i = negb (Z.testbit c i).
Proof.
  intros. unfold not64, u64.
  rewrite Z.mod_pow2_bits_low by lia. apply Z.lnot_spec. lia.
Qed.

Lemma set_tracing_id s : kutrace_tracing s = false → set_tracing false s = s.
Proof. destruct s. simpl. by intros ->. Qed.

(** Claim C5.  GETCOUNT returns the word distance from [traceblock_high]
    down to [traceblock_next], or down to [traceblock_limit] once the
    arena has wrapped or overshot, and returns its bitwise complement when
    wraparound occurred; with tracing already stopped the state is left as
    it was. *)
Theorem getcount_reports_claimed_words (irqs : list (state → state)) (h : hw)
    (user : option (list Z)) (arg : Z) (s : state)
    (Hbase : tracebase s ≠ NULL)
    (Harena : 0 <= traceblock_high s - traceblock_limit s < 2 ^ 63)
    (Hnext : traceblock_next s <= traceblock_high s) :
  kutrace_control irqs h user KUTRACE_CMD_GETCOUNT arg s
  = Some (set_tracing false s,
          if did_wrap_around s then not64 (claimed_words s)
          else claimed_words s) ∧
  (∀ i, 0 <= i < 64 →
     Z.testbit (not64 (claimed_words s)) i
     = negb (Z.testbit (claimed_words s) i)) ∧
  (kutrace_tracing s = false → set_tracing false s = s).
Proof.
  split_and!.
  - unfold kutrace_control.
    destruct (Z.eqb_spec (tracebase s) NULL); [done|].
    unfold get_count, claimed_words. cbv zeta. fsimpl.
    destruct (did_wrap_around s); cbn [orb].
    + by rewrite ptr_diff_small.
    + destruct (Z.ltb_spec (traceblock_next s) (traceblock_limit s)).
      * by rewrite ptr_diff_small.
      * rewrite ptr_diff_small; [done|lia].
  - intros. by apply not64_bits.
  - apply set_tracing_id.
Qed.

(** ** Off and Flush *)

Lemma do_flush_cpus_again tbs :
  ∀ m z tbs' m' z',
  do_flush_cpus tbs m z = (tbs', m', z') →
  ∀ m2 z2, - 2 ^ 31 <= z2 < 2 ^ 31 →
  do_flush_cpus tbs' m2 z2 = (tbs', m2, z2).
Proof.
  induction tbs as [|tb tbs IH]; intros m z tbs' m' z' E m2 z2 Hz.
  - simpl in E. by inversion E.
  - cbn [do_flush_cpus] in E.
    destruct ((tb_next tb =? NULL) || (tb_limit tb =? NULL)) eqn:Hnull.
    + destruct (do_flush_cpus tbs m z) as [[r1 r2] r3] eqn:Er.
      inversion E; subst. cbn [do_flush_cpus]. rewrite Hnull.
      by rewrite (IH _ _ _ _ _ Er m2 z2 Hz).
    + match type of E with
      | context [do_flush_cpus tbs ?ma ?za] =>
          destruct (do_flush_cpus tbs ma za) as [[r1 r2] r3] eqn:Er
      end.
      inversion E; subst. cbn [do_flush_cpus].
      apply orb_false_elim in Hnull as [_ Hl].
      cbn [tb_next tb_limit tb_set_next]. rewrite Hl. cbn [orb].
      rewrite Z.ltb_irrefl. cbn [zero_words].
      change (Z.of_nat 0) with 0. rewrite Z.add_0_r, s32_small by done.
      by rewrite (IH _ _ _ _ _ Er m2 z2 Hz).
Qed.

Lemma do_flush_cpus_at_limit tbs :
  ∀ m z,
  Forall (fun tb => tb_next tb = NULL ∨ tb_limit tb = NULL
                    ∨ tb_next tb = tb_limit tb)
         (do_flush_cpus tbs m z).1.1.
Proof.
  induction tbs as [|tb tbs IH]; intros m z; [constructor|].
  cbn [do_flush_cpus].
  destruct ((tb_next tb =? NULL) || (tb_limit tb =? NULL)) eqn:Hnull.
  - specialize (IH m z).
    destruct (do_flush_cpus tbs m z) as [[r1 r2] r3]. cbn [fst] in *.
    constructor; [|done].
    apply orb_true_iff in Hnull as [E|E]; apply Z.eqb_eq in E; auto.
  - match goal with |- context [do_flush_cpus tbs ?ma ?za] =>
      specialize (IH ma za);
      destruct (do_flush_cpus tbs ma za) as [[r1 r2] r3] end.
    cbn [fst] in *. constructor; [|done]. right. right. reflexivity.
Qed.

(** Claim C8.  A second [do_trace_off] gives what the first gave, and
    on a stopped tracer [do_trace_off] changes nothing; a second
    [do_flush] in a row zeroes no word and leaves the state as the first
    left it, every cursor in use standing at its limit already. *)
Theorem off_and_flush_idempotent (s : state) :
  do_trace_off (do_trace_off s).1 = do_trace_off s ∧
  (kutrace_tracing s = false → do_trace_off s = (s, 0)) ∧
  do_flush (do_flush s).1 = ((do_flush s).1, 0) ∧
  Forall (fun tb => tb_next tb = NULL ∨ tb_limit tb = NULL
                    ∨ tb_next tb = tb_limit tb)
         (per_cpu (do_flush s).1).
Proof.
  split_and!; cycle 3.
  { unfold do_flush. cbv zeta.
    pose proof (do_flush_cpus_at_limit (per_cpu (set_tracing false s))
                  (mem (set_tracing false s)) 0) as HF.
    by destruct (do_flush_cpus (per_cpu (set_tracing false s))
                   (mem (set_tracing false s)) 0) as [[tbs m] z]. }
  - reflexivity.
  - intros Hoff. unfold do_trace_off. by rewrite set_tracing_id.
  - unfold do_flush. cbv zeta. fsimpl.
    destruct (do_flush_cpus (per_cpu s) (mem s) 0) as [[tbs m] z] eqn:E.
    vsimpl.
    change (per_cpu (set_mem m (set_per_cpu tbs (set_tracing false s)))) with tbs.
    change (mem (set_mem m (set_per_cpu tbs (set_tracing false s)))) with m.
    rewrite (do_flush_cpus_again _ _ _ _ _ _ E m 0) by lia.
    reflexivity.
Qed.

(** ** IPC bucket *)

Lemma kIpcMapping_range i : 0 <= nth i kIpcMapping 0 <= 15.
Proof.
  do 64 (destruct i as [|i]; [simpl; lia|]). simpl. destruct i; lia.
Qed.

Lemma get_granular_range di dc g :
  get_granular di dc = Some g → 0 <= g <= 15.
Proof.
  unfold get_granular. case_match; [intros [= <-]; lia|].
  destruct (udiv32 _ _); [|done]. intros [= <-]. apply kIpcMapping_range.
Qed.

Lemma get_granular_near_zero di dc :
  dc = 0 ∨ dc = 1 → get_granular di dc = Some 0.
Proof. by intros [-> | ->]. Qed.

(** The divisor is zero exactly for the multiples of 2^31 that pass the
    guard. *)
Lemma get_granular_zdiv_iff di dc :
  0 <= dc < 2 ^ 64 →
  get_granular di dc = None ↔ dc ≠ 0 ∧ dc mod 2 ^ 31 = 0.
Proof.
  intros Hdc. unfold get_granular, udiv32.
  change (not64 1) with (2 ^ 64 - 2).
  assert (Hg : Z.land dc (2 ^ 64 - 2) = dc - dc mod 2).
  { assert (E : Z.land dc (2 ^ 64 - 2) = Z.ldiff (Z.land dc (Z.ones 64)) 1).
    { apply Z.bits_inj'. intros i Hi.
      rewrite Z.land_spec, Z.ldiff_spec, Z.land_spec.
      destruct (Z.ltb_spec i 64).
      - rewrite Z.ones_spec_low by lia.
        change (2 ^ 64 - 2) with (Z.ldiff (Z.ones 64) 1).
        rewrite Z.ldiff_spec, Z.ones_spec_low by lia. 
        by destruct (Z.testbit dc i), (Z.testbit 1 i).
      - rewrite Z.ones_spec_high by lia.
        change (2 ^ 64 - 2) with (Z.ldiff (Z.ones 64) 1).
        rewrite Z.ldiff_spec, Z.ones_spec_high by lia.
        by destruct (Z.testbit dc i). }
    rewrite E, Z.land_ones, Z.mod_small by lia.
    change 1 with (Z.ones 1) at 1.
    rewrite Z.ldiff_ones_r by lia.
    rewrite Z.shiftl_mul_pow2, Z.shiftr_div_pow2 by lia.
    change (2 ^ 1) with 2. lia. }
  rewrite Hg. unfold u32, u64.
  change (2 ^ 64) with 18446744073709551616 in *.
  change (2 ^ 32) with 4294967296. change (2 ^ 31) with 2147483648.
  destruct (Z.eqb_spec (dc - dc mod 2) 0).
  - split; [done|]. intros []. lia.
  - destruct (Z.eqb_spec ((dc * 150) mod 18446744073709551616 mod 4294967296) 0).
    + split; [|done]. intros _. lia.
    + split; [done|]. intros []. lia.
Qed.

(** Claim C9 fails on the code.  With [delta_cycles = 2^31] the guard
    [(delta_cycles & ~1) == 0] does not fire, [del_cycles], which is
    [(u32)(delta_cycles * 150)], is 0, and [get_granular] divides by zero
    whatever [delta_inst] is. *)
Theorem get_granular_divides_by_zero (delta_inst : Z) :
  Z.land 2147483648 (not64 1) ≠ 0 ∧
  u32 (u64 (2147483648 * 150)) = 0 ∧
  get_granular delta_inst 2147483648 = None.
Proof.
  split_and!.
  - intros E. vm_compute in E. discriminate E.
  - reflexivity.
  - unfold get_granular.
    change (Z.land 2147483648 (not64 1) =? 0) with false. cbv iota zeta.
    change (u32 (u64 (2147483648 * 150))) with 0.
    unfold udiv32. reflexivity.
Qed.

(** ** Bad record lengths *)

Lemma insert_n_krnl_bad_len irqs h krnl s :
  ¬ (1 <= entry_len (nth 0 krnl 0) <= 8) →
  insert_n_krnl irqs h krnl s = (set_tracing false s, 0).
Proof.
  intros Hbad. unfold insert_n_krnl.
  rewrite s32_small by (pose proof (entry_len_range (nth 0 krnl 0)); lia).
  by rewrite is_bad_len_true.
Qed.

Lemma insert_n_user_bad_len irqs h temp s :
  ¬ (1 <= entry_len (nth 0 temp 0) <= 8) →
  insert_n_user irqs h (Some temp) s = (set_tracing false s, 0).
Proof.
  intros Hbad. unfold insert_n_user.
  rewrite s32_small by (pose proof (entry_len_range (nth 0 temp 0)); lia).
  by rewrite is_bad_len_true.
Qed.

(** Claim C6.  For a record length outside 1..8, [get_claim],
    [get_slow_claim], [insert_n_krnl] and [insert_n_user] turn the tracing
    flag off, return NULL (or zero words) and change nothing else. *)
Theorem bad_len_degrades (len : Z) (Hbad : ¬ (1 <= len <= 8)) :
  (∀ irqs h s, get_claim irqs h len s = (set_tracing false s, NULL)) ∧
  (∀ h s, get_slow_claim h len s = (set_tracing false s, NULL)) ∧
  (∀ irqs h krnl s, entry_len (nth 0 krnl 0) = len →
     insert_n_krnl irqs h krnl s = (set_tracing false s, 0)) ∧
  (∀ irqs h temp s, entry_len (nth 0 temp 0) = len →
     insert_n_user irqs h (Some temp) s = (set_tracing false s, 0)).
Proof.
  pose proof (is_bad_len_true len Hbad) as Hb.
  split_and!; intros.
  - unfold get_claim. by rewrite Hb.
  - unfold get_slow_claim. by rewrite Hb.
  - apply insert_n_krnl_bad_len. congruence.
  - apply insert_n_user_bad_len. congruence.
Qed.

(** Claim C10.  For a word whose event field [n] is in 0x010..0x1ff,
    [entry_len] is the middle nibble [(n >> 4) & 0xf]: 0 for the codes
    0x100..0x10f and 15 for 0x1f0..0x1ff.  A word whose length comes out
    below 1 or above 8 makes [insert_n_krnl] and [insert_n_user] turn
    tracing off and return 0 without writing a record. *)
Theorem entry_len_outside_1_8 (word : Z)
    (Hn : MIN_EVENT_WITH_LENGTH <= event_of word <= MAX_EVENT_WITH_LENGTH) :
  entry_len word
  = Z.land (Z.shiftr (event_of word) EVENT_LENGTH_FIELD_SHIFT)
           EVENT_LENGTH_FIELD_MASK ∧
  (0x100 <= event_of word <= 0x10f → entry_len word = 0) ∧
  (0x1f0 <= event_of word <= 0x1ff → entry_len word = 15) ∧
  (entry_len word < 1 ∨ 8 < entry_len word →
   (∀ irqs h krnl s, nth 0 krnl 0 = word →
      insert_n_krnl irqs h krnl s = (set_tracing false s, 0)) ∧
   (∀ irqs h temp s, nth 0 temp 0 = word →
      insert_n_user irqs h (Some temp) s = (set_tracing false s, 0))).
Proof.
  unfold MIN_EVENT_WITH_LENGTH, MAX_EVENT_WITH_LENGTH in Hn.
  assert (He : entry_len word
               = Z.land (Z.shiftr (event_of word) EVENT_LENGTH_FIELD_SHIFT)
                        EVENT_LENGTH_FIELD_MASK).
  { unfold entry_len. fold (event_of word).
    unfold MAX_EVENT_WITH_LENGTH, MIN_EVENT_WITH_LENGTH.
    destruct (Z.ltb_spec 0x1ff (event_of word)); [lia|].
    destruct (Z.ltb_spec (event_of word) 0x10); [lia|]. reflexivity. }
  split; [exact He|].
  assert (Hv : entry_len word = (event_of word / 16) mod 16).
  { rewrite He. change EVENT_LENGTH_FIELD_SHIFT with 4.
    rewrite Z.shiftr_div_pow2 by lia.
    change EVENT_LENGTH_FIELD_MASK with (2 ^ 4 - 1).
    rewrite land_ones_mod by lia. reflexivity. }
  split; [intros; rewrite Hv; lia|].
  split; [intros; rewrite Hv; lia|].
  intros Hbad.
  split; intros; subst word;
    [apply insert_n_krnl_bad_len | apply insert_n_user_bad_len]; lia.
Qed.

(** ** Merging a return into its call *)

(** The masked difference that [insert_1_retopt] looks at, field by field. *)
Lemma mask_fields x :
  Z.land x EVENT_DELTA_RETVAL_MASK
  = Z.shiftl (Z.land (Z.shiftr x 16) (Z.ones 28)) 16.
Proof.
  change EVENT_DELTA_RETVAL_MASK with (Z.shiftl (Z.ones 28) 16). Z.bitblast.
Qed.

Lemma fields_split y :
  Z.land y (Z.ones 28) = 2 ^ 25 ↔
  Z.land (Z.shiftr y 16) (Z.ones 12) = 512 ∧
  Z.land (Z.shiftr y 8) (Z.ones 8) = 0 ∧ Z.land y (Z.ones 8) = 0.
Proof.
  intros. rewrite !Z.land_ones, !Z.shiftr_div_pow2 by lia.
  change (2 ^ 28) with 268435456. change (2 ^ 25) with 33554432.
  change (2 ^ 16) with 65536. change (2 ^ 12) with 4096.
  change (2 ^ 8) with 256. lia.
Qed.

Lemma field_lxor a b k n :
  0 <= k →
  Z.land (Z.shiftr (Z.lxor a b) k) (Z.ones n)
  = Z.lxor (Z.land (Z.shiftr a k) (Z.ones n)) (Z.land (Z.shiftr b k) (Z.ones n)).
Proof. intros. rewrite Z.shiftr_lxor. Z.bitblast. Qed.

Lemma shiftl16_inj a b : Z.shiftl a 16 = Z.shiftl b 16 ↔ a = b.
Proof. rewrite !Z.shiftl_mul_pow2 by lia. change (2 ^ 16) with 65536. lia. Qed.

Lemma diff_is_return_bit w a :
  Z.land (Z.lxor w a) EVENT_DELTA_RETVAL_MASK = EVENT_RETURN_BIT ↔
  Z.lxor (event_of w) (event_of a) = UNSHIFTED_EVENT_RETURN_BIT ∧
  delta_of w = delta_of a ∧ retval_of w = retval_of a.
Proof.
  rewrite mask_fields.
  change EVENT_RETURN_BIT with (Z.shiftl (2 ^ 25) 16).
  rewrite shiftl16_inj.
  rewrite fields_split. rewrite !Z.shiftr_shiftr by lia.
  change (16 + 16) with 32. change (16 + 8) with 24.
  unfold event_of, delta_of, retval_of.
  change UNSHIFTED_EVENT_MASK with (Z.ones 12).
  change UNSHIFTED_DELTA_MASK with (Z.ones 8).
  change UNSHIFTED_RETVAL_MASK with (Z.ones 8).
  change EVENT_SHIFT with 32. change DELTA_SHIFT with 24.
  change RETVAL_SHIFT with 16. change UNSHIFTED_EVENT_RETURN_BIT with 512.
  rewrite !field_lxor by lia. rewrite !Z.lxor_eq_0_iff. reflexivity.
Qed.

Lemma event_arg_fields event arg :
  0 <= event < 4096 → 0 <= arg <= 127 →
  event_of (event_arg event arg) = event ∧
  delta_of (event_arg event arg) = 0 ∧ retval_of (event_arg event arg) = 0.
Proof.
  intros He Ha.
  assert (E : event_arg event arg = event * 2 ^ 32 + arg).
  { unfold event_arg. change 0xffffffff with (Z.ones 32).
    rewrite Z.land_ones, Z.mod_small by lia.
    change EVENT_SHIFT with 32. rewrite Z.shiftl_mul_pow2 by lia.
    rewrite u64_small by lia.
    rewrite <- Z.shiftl_mul_pow2 by lia.
    rewrite <- Z.lxor_lor, <- Z.add_nocarry_lxor; [done| |].
    all: apply Z.bits_inj'; intros i Hi; rewrite Z.land_spec, Z.bits_0;
      destruct (Z.ltb_spec i 32);
      [rewrite Z.shiftl_spec_low by lia; done|];
      rewrite (Z.bits_above_log2 arg i), andb_false_r; [done|lia|];
      destruct (Z.eq_dec arg 0) as [->|]; [simpl; lia|];
      apply Z.log2_lt_pow2; [lia|];
      apply Z.lt_le_trans with (2 ^ 32); [lia|apply Z.pow_le_mono_r; lia]. }
  rewrite E. unfold event_of, delta_of, retval_of.
  change UNSHIFTED_EVENT_MASK with (Z.ones 12).
  change UNSHIFTED_DELTA_MASK with (Z.ones 8).
  change UNSHIFTED_RETVAL_MASK with (Z.ones 8).
  change EVENT_SHIFT with 32. change DELTA_SHIFT with 24.
  change RETVAL_SHIFT with 16.
  rewrite !Z.land_ones, !Z.shiftr_div_pow2 by lia.
  change (2 ^ 32) with 4294967296. change (2 ^ 24) with 16777216.
  change (2 ^ 16) with 65536. change (2 ^ 12) with 4096.
  change (2 ^ 8) with 256. lia.
Qed.

Lemma diff_eqb w event arg :
  0 <= event < 4096 → 0 <= arg <= 127 →
  (Z.land (Z.lxor w (event_arg event arg)) EVENT_DELTA_RETVAL_MASK
   =? EVENT_RETURN_BIT)
  = (Z.lxor (event_of w) event =? UNSHIFTED_EVENT_RETURN_BIT)
    && (delta_of w =? 0) && (retval_of w =? 0).
Proof.
  intros He Ha. destruct (event_arg_fields event arg He Ha) as (E1 & E2 & E3).
  apply eq_true_iff_eq.
  rewrite !andb_true_iff, !Z.eqb_eq, diff_is_return_bit, E1, E2, E3. tauto.
Qed.

Lemma land_not_ff x :
  0 <= x < 2 ^ 64 → Z.land x (not64 UNSHIFTED_RETVAL_MASK) = x - x mod 256.
Proof.
  intros. change (not64 UNSHIFTED_RETVAL_MASK) with (Z.shiftl (Z.ones 56) 8).
  assert (E : Z.land x (Z.shiftl (Z.ones 56) 8)
              = Z.shiftl (Z.land (Z.shiftr x 8) (Z.ones 56)) 8) by Z.bitblast.
  rewrite E, Z.land_ones, Z.shiftr_div_pow2, Z.shiftl_mul_pow2 by lia.
  change (2 ^ 64) with 18446744073709551616 in *.
  change (2 ^ 56) with 72057594037927936. change (2 ^ 8) with 256. lia.
Qed.

Lemma fits_byte_nonneg arg :
  0 <= arg <= 127 →
  (Z.land (u64 (arg + 128)) (not64 UNSHIFTED_RETVAL_MASK) =? 0) = true.
Proof.
  intros. apply Z.eqb_eq. rewrite u64_small by lia.
  rewrite land_not_ff by lia. lia.
Qed.

Lemma fits_byte_out arg :
  128 <= arg < 2 ^ 64 - 128 →
  (Z.land (u64 (arg + 128)) (not64 UNSHIFTED_RETVAL_MASK) =? 0) = false.
Proof.
  intros. apply Z.eqb_neq.
  change (2 ^ 64) with 18446744073709551616 in *.
  rewrite u64_small by (change (2 ^ 64) with 18446744073709551616; lia).
  rewrite land_not_ff by (change (2 ^ 64) with 18446744073709551616; lia). lia.
Qed.

Lemma event_arg_low_byte event arg :
  0 <= event < 4096 → 0 <= arg <= 127 →
  Z.land (event_arg event arg) UNSHIFTED_RETVAL_MASK = arg.
Proof.
  intros He Ha. unfold event_arg.
  change UNSHIFTED_RETVAL_MASK with (Z.ones 8).
  change 0xffffffff with (Z.ones 32). change EVENT_SHIFT with 32.
  rewrite Z.land_lor_distr_l.
  rewrite (Z.land_ones arg 32), (Z.mod_small arg) by lia.
  rewrite (Z.land_ones arg 8), (Z.mod_small arg) by lia.
  rewrite Z.shiftl_mul_pow2, u64_small by lia.
  rewrite Z.land_ones by lia.
  change (2 ^ 32) with 4294967296. change (2 ^ 8) with 256.
  replace ((event * 4294967296) mod 256) with 0 by lia. apply Z.lor_0_l.
Qed.

(** Claim C4, as amended.  With tracing on, for a return event (return
    bit set and one of the has-return bits set) whose value is in 0..127,
    [trace_1] merges into the prior word exactly when [merge_rule] holds:
    a prior entry exists, the two event codes differ exactly in the return
    bit, the delta and retval fields of the prior word are still zero, and
    the tick delta (a zero forced to 1) is at most 255; otherwise it does a
    normal one-word insert.  A return whose value is outside -128..127 is
    never merged.  A merge ors the delta and the value into the prior word
    and returns zero words inserted. *)
Theorem return_merge_rule (irqs : list (state → state)) (h : hw)
    (event arg : Z) (s : state)
    (Hon : kutrace_tracing s = true) (Hev : 0 <= event < 4096)
    (Hret : is_return_event event = true) :
  let prior := get_prior h s in
  let delta := ticks_since h (peek prior s) in
  (0 <= arg <= 127 →
     trace_1 irqs h event arg s
     = if merge_rule h event s
       then fst <$> retopt_combine h prior delta (event_arg event arg) s
       else fst <$> insert_1 irqs h (event_arg event arg) s) ∧
  (128 <= arg < 2 ^ 64 - 128 →
     trace_1 irqs h event arg s
     = fst <$> insert_1 irqs h (event_arg event arg) s) ∧
  (0 <= arg <= 127 → delta <= 255 → do_ipc s = false →
     retopt_combine h prior delta (event_arg event arg) s
     = Some (poke prior
               (Z.lor (peek prior s)
                      (Z.lor (Z.shiftl delta DELTA_SHIFT)
                             (Z.shiftl arg RETVAL_SHIFT))) s, 0)).
Proof.
  intros prior delta.
  unfold is_return_event in Hret.
  split_and!.
  - intros Ha. unfold trace_1. rewrite Hon. cbn [negb].
    fold (event_arg event arg). rewrite Hret, fits_byte_nonneg by done.
    cbn [andb]. unfold insert_1_retopt, merge_rule. fold prior.
    destruct (Z.eqb_spec prior NULL) as [E|E]; [done|]. cbn [negb andb].
    rewrite diff_eqb by done. fold (ticks_since h (peek prior s)). fold delta.
    by case_match.
  - intros Ha. unfold trace_1. rewrite Hon. cbn [negb].
    fold (event_arg event arg). rewrite Hret, fits_byte_out by done.
    reflexivity.
  - intros Ha Hd Hipc. unfold retopt_combine.
    change (do_ipc (poke ?p ?v s)) with (do_ipc s). rewrite Hipc.
    rewrite event_arg_low_byte by done.
    assert (0 < delta).
    { unfold delta, ticks_since. cbv zeta.
      match goal with |- context [if ?c =? 0 then _ else _] =>
        destruct (Z.eqb_spec c 0) as [|Hnz]; [lia|];
        assert (0 <= c) by (apply Z.land_nonneg; right; done); lia end. }
    rewrite !u64_small; [done| |].
    + change RETVAL_SHIFT with 16. rewrite Z.shiftl_mul_pow2 by lia.
      change (2 ^ 16) with 65536. change (2 ^ 64) with 18446744073709551616. lia.
    + change DELTA_SHIFT with 24. rewrite Z.shiftl_mul_pow2 by lia.
      change (2 ^ 24) with 16777216. change (2 ^ 64) with 18446744073709551616. lia.
Qed.

(** ** Memory *)

Lemma load_store m a v a' :
  load64 (store64 m a v) a' = if decide (a = a') then v else load64 m a'.
Proof.
  unfold load64, store64. rewrite lookup_insert.
  by destruct (decide (a = a')).
Qed.

Lemma load_store_eq m a v : load64 (store64 m a v) a = v.
Proof. rewrite load_store. by rewrite decide_True. Qed.

Lemma load_store_ne m a v a' : a ≠ a' → load64 (store64 m a v) a' = load64 m a'.
Proof. intros. rewrite load_store. by rewrite decide_False. Qed.

Lemma zero_words_out n : ∀ from m a,
  0 <= from → from + 8 * Z.of_nat n < 2 ^ 64 →
  (a < from ∨ from + 8 * Z.of_nat n <= a) →
  load64 (zero_words n from m) a = load64 m a.
Proof.
  induction n as [|n IH]; intros from m a H0 Hn Ha; [done|].
  cbn [zero_words]. rewrite ptr_add_small by (p64; lia).
  rewrite IH by (p64; lia). apply load_store_ne. lia.
Qed.

Lemma zero_words_in n : ∀ from m j,
  0 <= from → from + 8 * Z.of_nat n < 2 ^ 64 →
  0 <= j < Z.of_nat n →
  load64 (zero_words n from m) (from + 8 * j) = 0.
Proof.
  induction n as [|n IH]; intros from m j H0 Hn Hj; [lia|].
  cbn [zero_words]. rewrite ptr_add_small by (p64; lia).
  destruct (decide (j = 0)) as [->|Hj0].
  - rewrite zero_words_out by (p64; lia). rewrite Z.add_0_r. apply load_store_eq.
  - replace (from + 8 * j) with (from + 8 * 1 + 8 * (j - 1)) by lia.
    apply IH; p64; lia.
Qed.

(** ** Flushing one busy CPU *)

Lemma do_flush_cpus_idle tbs m z :
  Forall (fun tb => cursor tb = (NULL, NULL)) tbs →
  do_flush_cpus tbs m z = (tbs, m, z).
Proof.
  induction 1 as [|tb tbs Htb _ IH]; [done|].
  cbn [do_flush_cpus]. unfold cursor in Htb. injection Htb as -> ->.
  cbn. by rewrite IH.
Qed.

Lemma do_flush_cpus_one tbs : ∀ cpu tb m z p lim,
  tbs !! cpu = Some tb → cursor tb = (p, lim) →
  p ≠ NULL → lim ≠ NULL → p <= lim → (lim - p) mod 8 = 0 →
  (∀ j tb', j ≠ cpu → tbs !! j = Some tb' → cursor tb' = (NULL, NULL)) →
  let n := Z.to_nat ((lim - p) / 8) in
  do_flush_cpus tbs m z
  = (<[cpu := tb_set_next lim tb]> tbs, zero_words n p m,
     s32 (z + Z.of_nat n)).
Proof.
  induction tbs as [|t tbs IH]; intros cpu tb m z p lim Hlk Hc Hp Hl Hle Hal Hoth n;
    [done|].
  destruct cpu as [|cpu].
  - injection Hlk as ->. unfold cursor in Hc. injection Hc as Hn Hlm.
    cbn [do_flush_cpus]. rewrite Hn, Hlm.
    destruct (Z.eqb_spec p NULL); [done|].
    destruct (Z.eqb_spec lim NULL); [done|]. cbn [orb].
    assert (Hidle : Forall (fun tb => cursor tb = (NULL, NULL)) tbs).
    { apply Forall_lookup_2. intros j tb' Hj. apply (Hoth (S j)); done. }
    destruct (Z.ltb_spec p lim).
    + replace ((lim - p + 7) / 8) with ((lim - p) / 8) by lia.
      fold n. rewrite do_flush_cpus_idle by done. reflexivity.
    + assert (n = O) as -> by (unfold n; replace (lim - p) with 0 by lia; done).
      rewrite do_flush_cpus_idle by done. reflexivity.
  - cbn [lookup list_lookup] in Hlk.
    assert (Ht : cursor t = (NULL, NULL)) by (apply (Hoth O); done).
    unfold cursor in Ht. injection Ht as Ht1 Ht2.
    cbn [do_flush_cpus]. rewrite Ht1. cbn [Z.eqb NULL orb].
    change (0 =? 0) with true. cbn [orb].
    rewrite (IH cpu tb m z p lim Hlk Hc Hp Hl Hle Hal).
    + reflexivity.
    + intros j tb' Hj Hlk'. apply (Hoth (S j)); [lia|done].
Qed.

(** ** The header of the first block *)

Ltac load_step :=
  rewrite load_store; case_decide;
  [first [exfalso; lia | reflexivity] | first [exfalso; lia | idtac]].

Lemma initialize_first_block_mem h p s k :
  0 <= p → p + 65536 < 2 ^ 64 → 0 <= k < 12 →
  load64 (mem (initialize_trace_block h p true s).1) (p + 8 * k)
  = nth (Z.to_nat k) (first_block_header h s) 0.
Proof.
  intros Hp Hhi Hk. p64.
  unfold initialize_trace_block. cbv zeta. cbn [fst].
  match goal with |- context [if ?c then set_tb ?a ?b ?s0 else _] =>
    replace (mem (if c then set_tb a b s0 else s0)) with (mem s0)
      by (by destruct c) end.
  all: cbn [set_tb set_per_cpu mem zero_at foldl map poke set_mem
            set_prior_block_init_counter do_ipc do_wrap
            prior_block_init_counter].
  all: rewrite !blocksize64_val.
  all: rewrite ?(ptr_add_small p) by (p64; lia).
  all: rewrite ?(ptr_add_small (p + 8 * 8)) by (p64; lia).
  all: assert (Hcases : k = 0 ∨ k = 1 ∨ k = 2 ∨ k = 3 ∨ k = 4 ∨ k = 5 ∨ k = 6
                 ∨ k = 7 ∨ k = 8 ∨ k = 9 ∨ k = 10 ∨ k = 11) by lia.
  all: unfold first_block_header; cbv zeta.
  all: destruct Hcases as [->|[->|[->|[->|[->|[->|[->|[->|[->|[->|[->| ->]]]]]]]]]]];
       cbn [Z.to_nat Pos.to_nat Pos.iter_op Nat.add nth];
       repeat load_step.
Qed.

(** ** Running a session through the control surface *)

Ltac view_fields H :=
  pose proof (f_equal v_tracing H); pose proof (f_equal v_ipc H);
  pose proof (f_equal v_wrap H); pose proof (f_equal v_mb H);
  pose proof (f_equal v_base H); pose proof (f_equal v_high H);
  pose proof (f_equal v_limit H); pose proof (f_equal v_next H);
  pose proof (f_equal v_wrapped H); pose proof (f_equal v_filter H);
  pose proof (f_equal v_cursors H);
  cbn [v_tracing v_ipc v_wrap v_mb v_base v_high v_limit v_next v_wrapped
       v_filter v_cursors view_of armed_view filling_view] in *.

Lemma tb_of_lookup s cpu tb : per_cpu s !! cpu = Some tb → tb_of s cpu = tb.
Proof. intros E. unfold tb_of. by rewrite E. Qed.

(** A one-word insert that fits in the CPU's block: fast path, one store. *)
Lemma insert_1_fast h w s tb p lim :
  do_ipc s = false → per_cpu s !! hw_cpu h = Some tb → cursor tb = (p, lim) →
  0 < p → p + 8 < lim → lim < 2 ^ 64 →
  insert_1 [] h w s
  = Some (poke p (stamped (w, h))
            (set_tb (hw_cpu h) (tb_set_next (p + 8) tb) s), 1).
Proof.
  intros Hipc Hlk Hc Hp Hfit Hlim. unfold cursor in Hc. injection Hc as Hn Hl.
  assert (Hin : (hw_cpu h < length (per_cpu s))%nat)
    by (eapply lookup_lt_Some; eauto).
  unfold insert_1, get_claim. cbv zeta.
  change (is_bad_len 1) with false. cbn [get_claim_fast].
  rewrite (tb_of_lookup _ _ _ Hlk), Hl.
  destruct (Z.eqb_spec lim NULL) as [E|_]; [unfold NULL in E; lia|].
  unfold atomic_add_return. cbv zeta.
  rewrite (tb_of_lookup _ _ _ Hlk), Hn.
  change (claim_bytes 1) with 8.
  rewrite (u64_small (p + 8)) by (p64; lia).
  rewrite tb_of_set_tb_in by done. cbn [tb_limit tb_set_next].
  rewrite Hl, Z.eqb_refl.
  rewrite ptr_sub_small by (p64; lia).
  replace (p + 8 - 8 * 1) with p by lia.
  rewrite ptr_add_small by (p64; lia).
  destruct (Z.leb_spec lim (p + 8 * 1)); [lia|].
  destruct (Z.eqb_spec p NULL) as [E|_]; [unfold NULL in E; lia|].
  change (do_ipc (poke ?a ?v (set_tb ?c ?t s))) with (do_ipc s).
  rewrite Hipc. reflexivity.
Qed.

Lemma open_block_mem h len first s :
  mem (open_block h len first s).1
  = mem (initialize_trace_block h (traceblock_next s) first s).1.
Proof.
  unfold open_block.
  by destruct (initialize_trace_block h (traceblock_next s) first s).
Qed.

Lemma cursors_lookup_tb s cpu c :
  cursors s !! cpu = Some c → cursor (tb_of s cpu) = c.
Proof. intros E. rewrite cursor_tb_of. by rewrite E. Qed.

(** The first insert after Reset(0) and On: slow path, first block opened,
    header written, word stored at index 12. *)
Lemma insert_1_first h w s base nc :
  view_of s = armed_view base nc → prior_block_init_counter s = 0 →
  (hw_cpu h < nc)%nat → 0 < base → base + 2097152 < 2 ^ 64 →
  ∃ s', insert_1 [] h w s = Some (s', 1) ∧
        view_of s' = filling_view base nc (hw_cpu h) 1 ∧
        load64 (mem s') (base + 2031616 + 96) = stamped (w, h) ∧
        ∀ k, 0 <= k < 12 →
          load64 (mem s') (base + 2031616 + 8 * k)
          = nth (Z.to_nat k) (first_block_header h s) 0.
Proof.
  intros Hv Hbic Hcpu Hbase Htop. view_fields Hv.
  assert (Hcur : cursor (tb_of s (hw_cpu h)) = (NULL, NULL)).
  { apply cursors_lookup_tb. rewrite H9. by apply lookup_replicate_2. }
  unfold cursor in Hcur. injection Hcur as Hn Hl.
  unfold insert_1, get_claim. cbv zeta.
  change (is_bad_len 1) with false. cbn [get_claim_fast].
  rewrite Hl. change (NULL =? NULL) with true. cbv iota.
  change (NULL <=? ptr_add NULL 1) with true. cbv iota.
  unfold get_slow_claim. change (is_bad_len 1) with false. cbv iota.
  rewrite Hl. unfold atomic_add_return. cbv zeta. rewrite Hn.
  change (u64 (NULL + claim_bytes 1)) with 8.
  change (ptr_sub 8 1) with 0. change (NULL <=? ptr_add 0 1) with true.
  cbn [orb].
  set (s1 := set_tb (hw_cpu h) (tb_set_next 8 (tb_of s (hw_cpu h))) s).
  unfold really_get_slow_claim. cbv zeta.
  change (traceblock_next s1) with (traceblock_next s).
  change (traceblock_high s1) with (traceblock_high s).
  rewrite H4, H6, Z.eqb_refl.
  rewrite blocksize64_val, ptr_sub_small by (p64; lia).
  replace (base + 2097152 - 8 * 8192) with (base + 2031616) by lia.
  cbn [traceblock_next traceblock_limit set_traceblock_next].
  change (traceblock_limit s1) with (traceblock_limit s). rewrite H5.
  destruct (Z.ltb_spec (base + 2031616) base); [lia|].
  set (s2 := set_traceblock_next (base + 2031616) s1).
  pose proof (open_block_view h 1 true s2) as (Hp & Hv2).
  pose proof (open_block_mem h 1 true s2) as Hm2.
  cbv zeta in Hp, Hv2.
  change (traceblock_next s2) with (base + 2031616) in Hp, Hv2, Hm2.
  rewrite blocksize64_val in Hv2.
  rewrite (ptr_add_small (base + 2031616) 8) in Hp, Hv2 by (p64; lia).
  rewrite (ptr_add_small (base + 2031616 + 8 * 8) 4) in Hp, Hv2 by (p64; lia).
  rewrite (ptr_add_small (base + 2031616 + 8 * 8 + 8 * 4) 1) in Hv2
    by (p64; lia).
  rewrite (ptr_add_small (base + 2031616) 8192) in Hv2 by (p64; lia).
  destruct (open_block h 1 true s2) as [s3 p] eqn:E3. cbn [fst snd] in *.
  subst p.
  destruct (Z.eqb_spec (base + 2031616 + 8 * 8 + 8 * 4) NULL) as [E|_];
    [unfold NULL in E; lia|].
  assert (Hipc3 : do_ipc s3 = false).
  { pose proof (f_equal v_ipc Hv2) as E. cbn in E. by rewrite E. }
  change (do_ipc (poke ?a ?v s3)) with (do_ipc s3). rewrite Hipc3.
  eexists. split; [reflexivity|]. split_and!.
  - rewrite view_poke, Hv2. unfold filling_view.
    change (kutrace_tracing s2) with (kutrace_tracing s).
    change (do_ipc s2) with (do_ipc s). change (do_wrap s2) with (do_wrap s).
    change (tracemb s2) with (tracemb s).
    change (tracebase s2) with (tracebase s).
    change (traceblock_high s2) with (traceblock_high s).
    change (traceblock_limit s2) with (traceblock_limit s).
    change (did_wrap_around s2) with (did_wrap_around s).
    change (kutrace_pid_filter s2) with (kutrace_pid_filter s).
    change (cursors s2) with (cursors s1).
    unfold s1. rewrite cursors_set_tb, list_insert_insert_eq.
    rewrite H, H0, H1, H2, H3, H4, H5, H7, H8, H9.
    f_equal. f_equal. f_equal; lia.
  - cbn [poke mem set_mem]. replace (base + 2031616 + 8 * 8 + 8 * 4)
      with (base + 2031616 + 96) by lia. apply load_store_eq.
  - intros k Hk. cbn [poke mem set_mem].
    rewrite load_store_ne by lia. rewrite Hm2.
    rewrite initialize_first_block_mem by (p64; lia). reflexivity.
Qed.

Lemma run_commands_app cmds1 cmds2 s :
  run_commands (cmds1 ++ cmds2) s
  = run_commands cmds1 s ≫= run_commands cmds2.
Proof.
  revert s. induction cmds1 as [|c cmds1 IH]; intros s; [done|].
  cbn [run_commands app].
  destruct (kutrace_control [] c.2 None c.1.1 c.1.2 s) as [[s' r]|]; [|done].
  apply IH.
Qed.

Lemma cursors_lookup s cpu c :
  cursors s !! cpu = Some c →
  ∃ tb, per_cpu s !! cpu = Some tb ∧ cursor tb = c.
Proof.
  unfold cursors. rewrite list_lookup_fmap.
  destruct (per_cpu s !! cpu) as [tb|]; [|done]. intros [= <-]. eauto.
Qed.

(** The inserts that follow, each landing one word above the last. *)
Lemma inserts_run base nc cpu (hdr : list Z) rest :
  ∀ done s,
  0 < base → base + 2097152 < 2 ^ 64 → (cpu < nc)%nat →
  Forall (fun wi : Z * hw => hw_cpu wi.2 = cpu) rest →
  (1 <= length done)%nat →
  Z.of_nat (length done) + Z.of_nat (length rest) <= 8179 →
  view_of s = filling_view base nc cpu (Z.of_nat (length done)) →
  (∀ i wi, done !! i = Some wi →
     load64 (mem s) (base + 2031616 + 96 + 8 * Z.of_nat i) = stamped wi) →
  (∀ k, 0 <= k < 12 →
     load64 (mem s) (base + 2031616 + 8 * k) = nth (Z.to_nat k) hdr 0) →
  ∃ s',
    run_commands (map (fun wi => (KUTRACE_CMD_INSERT1, wi.1, wi.2)) rest) s
    = Some s' ∧
    view_of s'
    = filling_view base nc cpu (Z.of_nat (length (done ++ rest))) ∧
    (∀ i wi, (done ++ rest) !! i = Some wi →
       load64 (mem s') (base + 2031616 + 96 + 8 * Z.of_nat i) = stamped wi) ∧
    (∀ k, 0 <= k < 12 →
       load64 (mem s') (base + 2031616 + 8 * k) = nth (Z.to_nat k) hdr 0).
Proof.
  induction rest as [|[w h] rest IH];
    intros done s Hbase Htop Hcpu Hall Hd Hlen Hv Hws Hhdr.
  - exists s. rewrite app_nil_r. by split_and!.
  - apply Forall_cons in Hall as [Hh Hall]. cbn [snd fst] in Hh.
    cbn [map run_commands fst snd]. unfold kutrace_control.
    view_fields Hv.
    destruct (Z.eqb_spec (tracebase s) NULL) as [E|_];
      [unfold NULL in E; lia|].
    rewrite H. cbn [negb].
    set (p := base + 2031616 + 96 + 8 * Z.of_nat (length done)) in *.
    assert (Hlk : cursors s !! cpu = Some (p, base + 2097152)).
    { rewrite H9. apply list_lookup_insert_eq. by rewrite length_replicate. }
    destruct (cursors_lookup _ _ _ Hlk) as (tb & Htb & Hc).
    cbn [length] in Hlen.
    rewrite (insert_1_fast h w s tb p (base + 2097152))
      by (try done; try (rewrite Hh; done); unfold p; p64; lia).
    rewrite Hh.
    set (s1 := poke p (stamped (w, h)) (set_tb cpu (tb_set_next (p + 8) tb) s)).
    destruct (IH (done ++ [(w, h)]) s1) as (s' & Hrun & Hv' & Hws' & Hhdr');
      try done.
    + rewrite length_app. cbn [length]. lia.
    + rewrite length_app. cbn [length]. lia.
    + unfold s1. rewrite view_poke, view_set_tb. unfold filling_view.
      rewrite H, H0, H1, H2, H3, H4, H5, H6, H7, H8, H9.
      rewrite list_insert_insert_eq, length_app.
      unfold cursor in Hc. injection Hc as _ Hl.
      unfold cursor. cbn [length tb_next tb_limit tb_set_next]. rewrite Hl.
      f_equal. f_equal. f_equal. unfold p. lia.
    + intros i wi Hi. unfold s1. cbn [poke mem set_mem set_tb set_per_cpu].
      apply lookup_app_Some in Hi as [Hi|[Hge Hi]].
      * rewrite load_store_ne; [by apply Hws|].
        apply lookup_lt_Some in Hi. unfold p. lia.
      * apply list_lookup_singleton_Some in Hi as [Hi <-].
        replace i with (length done) by lia. apply load_store_eq.
    + intros k Hk. unfold s1. cbn [poke mem set_mem set_tb set_per_cpu].
      rewrite load_store_ne; [by apply Hhdr|]. unfold p. lia.
    + exists s'. rewrite <- app_assoc in Hv', Hws'. by split_and!.
Qed.

Lemma first_block_header_fresh h s :
  prior_block_init_counter s = 0 → do_ipc s = false → do_wrap s = false →
  0 <= hw_block_time h →
  first_block_header h s = session_header h.
Proof.
  intros Hp Hi Hw Ht. unfold first_block_header, session_header. cbv zeta.
  rewrite Hp, Hi, Hw. change (Z.land 0 kCounterWrapMask) with 0.
  rewrite Z.lor_0_r. destruct (Z.ltb_spec (hw_block_time h) 0); [lia|done].
Qed.

Lemma reset_on h s :
  0 < tracebase s → tracebase s + 2097152 < 2 ^ 64 → tracemb s = 2 →
  ∃ r, run_commands [(KUTRACE_CMD_RESET, 0, h); (KUTRACE_CMD_ON, 0, h)] s
       = Some r ∧
       view_of r = armed_view (tracebase s) (length (per_cpu s)) ∧
       prior_block_init_counter r = 0 ∧ mem r = mem s.
Proof.
  intros Hb Ht Hm. cbn [run_commands fst snd]. unfold kutrace_control.
  destruct (Z.eqb_spec (tracebase s) NULL) as [E|_]; [unfold NULL in E; lia|].
  unfold do_reset. cbv zeta. cbn [tracebase fst].
  destruct (Z.eqb_spec (tracebase s) NULL) as [E|_]; [unfold NULL in E; lia|].
  eexists. split; [reflexivity|]. split_and!; try reflexivity.
  unfold view_of, armed_view, cursors. cbn.
  rewrite Hm. change (Z.shiftl 2 20) with 2097152.
  rewrite u64_small by (p64; lia).
  f_equal. rewrite map_map. cbn.
  clear. induction (per_cpu s) as [|? ? IH]; [done|]. cbn. by rewrite IH.
Qed.

(** Reading back from a state whose frontier stands one block below
    [traceblock_high]. *)
Lemma query_one_block h s base :
  0 < base → base + 2097152 < 2 ^ 64 →
  tracebase s = base → traceblock_high s = base + 2097152 →
  traceblock_limit s = base → traceblock_next s = base + 2031616 →
  did_wrap_around s = false →
  query KUTRACE_CMD_GETCOUNT 0 h s = Some 8192 ∧
  (∀ j, 0 <= j < 8192 →
     query KUTRACE_CMD_GETWORD j h s
     = Some (load64 (mem s) (base + 2031616 + 8 * j))) ∧
  (∀ j, 8192 <= j → query KUTRACE_CMD_GETWORD j h s = Some 0).
Proof.
  intros Hb Ht Eb Eh El En Ew.
  assert (Hcount : get_count (set_tracing false s) = (set_tracing false s, 8192)).
  { unfold get_count. cbv zeta. cbn [did_wrap_around traceblock_next
      traceblock_limit traceblock_high set_tracing].
    rewrite Ew, En, El, Eh. cbn [orb].
    destruct (Z.ltb_spec (base + 2031616) base); [lia|].
    rewrite ptr_diff_small by lia. f_equal. lia. }
  unfold query, kutrace_control. rewrite Eb.
  destruct (Z.eqb_spec base NULL) as [E|_]; [unfold NULL in E; lia|].
  rewrite Ew. split_and!.
  - unfold get_count in *. cbv zeta in *.
    cbn [did_wrap_around traceblock_next traceblock_limit traceblock_high
         set_tracing] in *.
    rewrite Ew, En, El, Eh in *. cbn [orb] in *.
    destruct (Z.ltb_spec (base + 2031616) base); [lia|].
    cbn. f_equal. congruence.
  - intros j Hj. unfold get_word. cbv zeta.
    change (set_tracing false (set_tracing false s)) with (set_tracing false s).
    rewrite Hcount. destruct (Z.leb_spec 8192 j); [lia|].
    cbn [fmap option_fmap option_map snd]. f_equal.
    change KUTRACEBLOCKSHIFTU64 with 13.
    rewrite Z.shiftr_div_pow2 by lia. change (2 ^ 13) with 8192.
    replace (j / 8192) with 0 by lia.
    change (Z.shiftl 1 13 - 1) with (Z.ones 13).
    rewrite Z.land_ones by lia. change (2 ^ 13) with 8192.
    rewrite Z.mod_small by lia.
    change (u64 (Z.shiftl (0 + 1) 13)) with 8192.
    cbn [traceblock_high set_tracing]. rewrite Eh.
    rewrite ptr_sub_small by (p64; lia).
    rewrite ptr_add_small by (p64; lia).
    unfold peek. cbn [mem set_tracing]. f_equal. lia.
  - intros j Hj. unfold get_word. cbv zeta.
    change (set_tracing false (set_tracing false s)) with (set_tracing false s).
    rewrite Hcount. destruct (Z.leb_spec 8192 j); [done|lia].
Qed.

Lemma off_flush h s base nc cpu k :
  0 < base → base + 2097152 < 2 ^ 64 → (cpu < nc)%nat → 1 <= k <= 8179 →
  view_of s = filling_view base nc cpu k →
  ∃ sf,
    run_commands [(KUTRACE_CMD_OFF, 0, h); (KUTRACE_CMD_FLUSH, 0, h)] s
    = Some sf ∧
    tracebase sf = base ∧ traceblock_high sf = base + 2097152 ∧
    traceblock_limit sf = base ∧ traceblock_next sf = base + 2031616 ∧
    did_wrap_around sf = false ∧
    mem sf = zero_words (Z.to_nat (8192 - 12 - k))
               (base + 2031616 + 96 + 8 * k) (mem s).
Proof.
  intros Hb Ht Hcpu Hk Hv. view_fields Hv.
  cbn [run_commands fst snd].
  assert (E1 : kutrace_control [] h None KUTRACE_CMD_OFF 0 s
               = Some (set_tracing false s, 0)).
  { unfold kutrace_control. rewrite H3.
    destruct (Z.eqb_spec base NULL) as [E|_]; [unfold NULL in E; lia|done]. }
  assert (E2 : kutrace_control [] h None KUTRACE_CMD_FLUSH 0
                 (set_tracing false s)
               = Some (do_flush (set_tracing false s))).
  { unfold kutrace_control.
    change (tracebase (set_tracing false s)) with (tracebase s). rewrite H3.
    destruct (Z.eqb_spec base NULL) as [E|_]; [unfold NULL in E; lia|done]. }
  rewrite E1, E2. clear E1 E2.
  unfold do_flush. cbv zeta.
  change (per_cpu (set_tracing false (set_tracing false s))) with (per_cpu s).
  change (mem (set_tracing false (set_tracing false s))) with (mem s).
  set (p := base + 2031616 + 96 + 8 * k) in *.
  assert (Hlk : cursors s !! cpu = Some (p, base + 2097152)).
  { rewrite H9. apply list_lookup_insert_eq. by rewrite length_replicate. }
  destruct (cursors_lookup _ _ _ Hlk) as (tb & Htb & Hc).
  rewrite (do_flush_cpus_one (per_cpu s) cpu tb (mem s) 0 p (base + 2097152))
    by (try done; try (unfold NULL, p; lia);
        intros j tb' Hj Hlk';
        assert (Hcj : cursors s !! j = Some (cursor tb'))
          by (unfold cursors; rewrite list_lookup_fmap, Hlk'; done);
        rewrite H9, list_lookup_insert_ne in Hcj by done;
        apply lookup_replicate in Hcj as [Hcj _]; done).
  cbv zeta. eexists. split; [reflexivity|].
  cbn [tracebase traceblock_high traceblock_limit traceblock_next
       did_wrap_around mem set_mem set_per_cpu set_tracing fst].
  split_and!; try done.
  f_equal. unfold p. f_equal. lia.
Qed.

(** Claim C7, as amended.  Reset(flags=0) of a 2-MiB arena, On, then
    single-word inserts on one CPU (ten in the scenario, here any number
    from 1 to 8179), then Off, then Flush: GETCOUNT returns 8192, the words
    of the one block opened; GETWORD(0..11) return that block's header;
    GETWORD(12 + i) returns the i-th word inserted, oldest first;
    GETWORD returns 0 for the rest of the block and 0 from 8192 on, as out
    of range. *)
Theorem session_word_layout (s : state) (h h0 : hw) (w0 : Z)
    (ins : list (Z * hw)) (cpu : nat)
    (Hbase : 0 < tracebase s) (Htop : tracebase s + 2097152 < 2 ^ 64)
    (Hmb : tracemb s = 2) (Hcpu : (cpu < length (per_cpu s))%nat)
    (Hall : Forall (fun wi : Z * hw => hw_cpu wi.2 = cpu) ins)
    (Hfirst : ins !! 0%nat = Some (w0, h0))
    (Htime : 0 <= hw_block_time h0)
    (Hlen : Z.of_nat (length ins) <= 8179) :
  ∃ sf,
    run_commands (session h 0 ins) s = Some sf ∧
    query KUTRACE_CMD_GETCOUNT 0 h sf = Some 8192 ∧
    (∀ i wi, ins !! i = Some wi →
       query KUTRACE_CMD_GETWORD (12 + Z.of_nat i) h sf = Some (stamped wi)) ∧
    (∀ k, 0 <= k < 12 →
       query KUTRACE_CMD_GETWORD k h sf
       = Some (nth (Z.to_nat k) (session_header h0) 0)) ∧
    (∀ j, 12 + Z.of_nat (length ins) <= j < 8192 →
       query KUTRACE_CMD_GETWORD j h sf = Some 0) ∧
    (∀ j, 8192 <= j → query KUTRACE_CMD_GETWORD j h sf = Some 0).
Proof.
  destruct ins as [|[w0' h0'] rest]; [done|].
  injection Hfirst as -> ->.
  apply Forall_cons in Hall as [Hh0 Hall]. cbn [fst snd] in Hh0.
  set (base := tracebase s) in *. set (nc := length (per_cpu s)) in *.
  cbn [length] in Hlen.
  unfold session. rewrite run_commands_app.
  destruct (reset_on h s Hbase Htop Hmb) as (r & -> & Hvr & Hpr & Hmr).
  cbn [mbind option_bind]. fold base nc in Hvr.
  rewrite run_commands_app. cbn [map fst snd].
  change (run_commands ((KUTRACE_CMD_INSERT1, w0, h0) :: ?l) r)
    with (match kutrace_control [] h0 None KUTRACE_CMD_INSERT1 w0 r with
          | Some (s', _) => run_commands l s'
          | None => None
          end).
  unfold kutrace_control at 1.
  pose proof Hvr as Hvr'. view_fields Hvr'.
  rewrite H3. destruct (Z.eqb_spec base NULL) as [E|_]; [unfold NULL in E; lia|].
  rewrite H. cbn [negb].
  destruct (insert_1_first h0 w0 r base nc Hvr Hpr ltac:(lia) Hbase Htop)
    as (s1 & -> & Hv1 & Hw1 & Hh1).
  rewrite Hh0 in Hv1.
  destruct (inserts_run base nc cpu (session_header h0) rest [(w0, h0)] s1)
    as (sk & -> & Hvk & Hwk & Hhk); try done.
  { cbn [length]. lia. }
  { intros i wi Hi. apply list_lookup_singleton_Some in Hi as [-> <-].
    rewrite <- Hw1. f_equal. lia. }
  { intros k Hk. rewrite Hh1 by done.
    by rewrite first_block_header_fresh. }
  cbn [mbind option_bind app length] in *.
  destruct (off_flush h sk base nc cpu (Z.of_nat (S (length rest))))
    as (sf & -> & Eb & Eh & El & En & Ew & Em); try done; try lia.
  exists sf. split; [done|].
  destruct (query_one_block h sf base Hbase Htop Eb Eh El En Ew)
    as (Hcount & Hword & Hout).
  split_and!; try done.
  - intros i wi Hi. pose proof (lookup_lt_Some _ _ _ Hi) as Hilt.
    cbn [length] in Hilt.
    rewrite Hword by lia. f_equal. rewrite Em.
    rewrite zero_words_out by (p64; lia).
    rewrite <- (Hwk i wi Hi). f_equal. lia.
  - intros k Hk. rewrite Hword by lia. f_equal. rewrite Em.
    rewrite zero_words_out by (p64; lia). by apply Hhk.
  - intros j Hj. rewrite Hword by lia. f_equal. rewrite Em.
    replace (base + 2031616 + 8 * j)
      with (base + 2031616 + 96 + 8 * Z.of_nat (S (length rest))
            + 8 * (j - 12 - Z.of_nat (S (length rest)))) by lia.
    apply zero_words_in; p64; lia.
Qed.

(** * Worked cases on the example machine *)

Example ex_called_word :
  peek (get_prior (ex_hw 150) ex_called) ex_called
  = Z.lor (Z.shiftl 100 44) (Z.shiftl 0x800 32).
Proof. vm_compute. reflexivity. Qed.

Example ex_returned_word :
  peek (get_prior (ex_hw 160) ex_returned) ex_returned
  = Z.lor (Z.lor (Z.shiftl 100 44) (Z.shiftl 0x800 32))
      (Z.lor (Z.shiftl 50 24) (Z.shiftl 3 16)).
Proof. vm_compute. reflexivity. Qed.

(** Against claim C4 as stated.  After the call at time 100 and its merged
    return at time 150, a second return at time 160 meets every condition
    of the claim (tracing on, a return event, a prior entry, event codes
    0x800 and 0xa00 differing exactly in the return bit, 60 ticks, value 3)
    and yet is not merged: the cursor moves up one word, the prior word is
    unchanged and the return is stored as a record of its own. *)
Lemma second_return_not_merged :
  let h := ex_hw 160 in
  let s := ex_returned in
  let prior := get_prior h s in
  kutrace_tracing s = true ∧ is_return_event 0xa00 = true ∧
  tb_next (tb_of s 0) < tb_limit (tb_of s 0) ∧
  Z.lxor (event_of (peek prior s)) 0xa00 = UNSHIFTED_EVENT_RETURN_BIT ∧
  ticks_since h (peek prior s) = 60 ∧
  Z.land (u64 (3 + 128)) (not64 UNSHIFTED_RETVAL_MASK) = 0 ∧
  ∃ s', trace_1 [] h 0xa00 3 s = Some s' ∧
        tb_next (tb_of s' 0) = tb_next (tb_of s 0) + 8 ∧
        peek prior s' = peek prior s ∧
        peek (tb_next (tb_of s 0)) s'
        = Z.lor (Z.shiftl 160 44) (Z.lor (Z.shiftl 0xa00 32) 3).
Proof.
  cbv zeta. split_and!; try (vm_compute; reflexivity).
  eexists. split_and!; vm_compute; reflexivity.
Qed.

(** Against claim C7 as stated.  After Reset(0), On, ten single-word
    inserts, Off and Flush on the example machine, GETCOUNT returns 8192,
    not 10; GETWORD(0) is the block's time-stamp word, not the word
    inserted last; GETWORD(9) is 0, not the word inserted first;
    GETWORD(10) is the task name and not 0; the ten words are at 12..21,
    oldest first. *)
Lemma ten_inserts_read_back :
  query KUTRACE_CMD_GETCOUNT 0 (ex_hw 200) ex_flushed = Some 8192 ∧
  query KUTRACE_CMD_GETWORD 0 (ex_hw 200) ex_flushed = Some 101 ∧
  query KUTRACE_CMD_GETWORD 9 (ex_hw 200) ex_flushed = Some 0 ∧
  query KUTRACE_CMD_GETWORD 10 (ex_hw 200) ex_flushed = Some 0x6873 ∧
  query KUTRACE_CMD_GETWORD 12 (ex_hw 200) ex_flushed
  = Some (stamped (Z.shiftl 0x201 EVENT_SHIFT, ex_hw 101)) ∧
  query KUTRACE_CMD_GETWORD 21 (ex_hw 200) ex_flushed
  = Some (stamped (Z.shiftl 0x20a EVENT_SHIFT, ex_hw 110)) ∧
  stamped (Z.shiftl 0x20a EVENT_SHIFT, ex_hw 110) ≠ 101 ∧
  stamped (Z.shiftl 0x201 EVENT_SHIFT, ex_hw 101) ≠ 0.
Proof. split_and!; try (vm_compute; reflexivity); vm_compute; discriminate. Qed.

(** The session theorem at the ten inserts of the example machine. *)
Lemma session_word_layout_witness :
  ∃ sf,
    run_commands (session (ex_hw 200) 0 ex_ins) ex_loaded = Some sf ∧
    query KUTRACE_CMD_GETCOUNT 0 (ex_hw 200) sf = Some 8192 ∧
    (∀ i wi, ex_ins !! i = Some wi →
       query KUTRACE_CMD_GETWORD (12 + Z.of_nat i) (ex_hw 200) sf
       = Some (stamped wi)) ∧
    (∀ k, 0 <= k < 12 →
       query KUTRACE_CMD_GETWORD k (ex_hw 200) sf
       = Some (nth (Z.to_nat k) (session_header (ex_hw 101)) 0)) ∧
    (∀ j, 12 + Z.of_nat (length ex_ins) <= j < 8192 →
       query KUTRACE_CMD_GETWORD j (ex_hw 200) sf = Some 0) ∧
    (∀ j, 8192 <= j → query KUTRACE_CMD_GETWORD j (ex_hw 200) sf = Some 0).
Proof.
  apply (session_word_layout ex_loaded (ex_hw 200) (ex_hw 101)
           (Z.shiftl 0x201 EVENT_SHIFT) ex_ins 0%nat).
  - reflexivity.
  - reflexivity.
  - reflexivity.
  - simpl. lia.
  - repeat constructor.
  - reflexivity.
  - simpl. lia.
  - simpl. lia.
Defined.

Example ex_claimed_cursor :
  cursor (tb_of ex_claimed 0)
  = (ex_base + 2031616 + 104, ex_base + 2097152).
Proof. vm_compute. reflexivity. Qed.

(** A three-word claim on the example machine, interrupted by a handler
    that claims two words. *)
Lemma claim_within_one_block_witness :
  in_one_block (traceblock_limit ex_claimed) (traceblock_high ex_claimed)
    (get_claim (map claims_handler [[(ex_hw 101, 2)]]) (ex_hw 102) 3
       ex_claimed).2 3.
Proof.
  refine (proj1 (proj1 (claim_within_one_block [[(ex_hw 101, 2)]] (ex_hw 102)
                          3 ex_claimed _ _) _ _ _ _)).
  - lia.
  - change (sched_cost [[(ex_hw 101, 2)]] + 3) with 7.
    unfold wf, wf_view.
    assert (E : v_cursors (view_of ex_claimed)
                = [(ex_base + 2031616 + 104, ex_base + 2097152); (NULL, NULL)])
      by (vm_compute; reflexivity).
    rewrite E.
    change (v_limit (view_of ex_claimed)) with ex_base.
    change (v_high (view_of ex_claimed)) with (ex_base + 2097152).
    change (v_next (view_of ex_claimed)) with (ex_base + 2031616).
    unfold cursor_ok, block_end_ok, ex_base, NULL. rewrite blocksize_val.
    change (2 ^ 64) with 18446744073709551616.
    split_and!; try lia. repeat constructor; cbn [fst snd]; lia.
  - apply surjective_pairing.
  - vm_compute. discriminate.
Defined.

(** On the example machine a handler rolls the block while a one-word
    claim is in flight: the claim sits in the old block, outside the new
    one, and the pass is run again. *)
Lemma fast_path_retry_rule_witness :
  get_claim_fast [ex_roll] 1 0 NULL NULL ex_claimed
  = get_claim_fast [] 1 0
      (ex_base + 2031616 + 104) (ex_base + 2031616)
      (ex_roll (atomic_add_return (claim_bytes 1) 0 ex_claimed).1).
Proof.
  refine (proj1 (proj2 (fast_path_retry_rule ex_roll [] 1 0 NULL NULL
                          ex_claimed _ _ _)) _).
  - vm_compute. discriminate.
  - vm_compute. discriminate.
  - vm_compute. split; [discriminate|reflexivity].
  - vm_compute. intros [_ H2]. discriminate H2.
Defined.

(** The thirty-third block of a 2-MiB arena without wraparound. *)
Lemma slow_claim_arena_exhausted_witness :
  really_get_slow_claim (ex_hw 300) 1 ex_full
  = (set_tracing false
       (set_traceblock_next
          (ptr_sub (traceblock_next ex_full) KUTRACEBLOCKSIZEU64) ex_full),
     NULL).
Proof.
  refine (proj1 (proj2 (slow_claim_arena_exhausted (ex_hw 300) 1 ex_full _) _)).
  - vm_compute. reflexivity.
  - vm_compute. reflexivity.
Defined.

(** The return at time 150 after the call at time 100. *)
Lemma return_merge_rule_witness :
  trace_1 [] (ex_hw 150) 0xa00 3 ex_called
  = if merge_rule (ex_hw 150) 0xa00 ex_called
    then fst <$> retopt_combine (ex_hw 150)
                   (get_prior (ex_hw 150) ex_called)
                   (ticks_since (ex_hw 150)
                      (peek (get_prior (ex_hw 150) ex_called) ex_called))
                   (event_arg 0xa00 3) ex_called
    else fst <$> insert_1 [] (ex_hw 150) (event_arg 0xa00 3) ex_called.
Proof.
  refine (proj1 (return_merge_rule [] (ex_hw 150) 0xa00 3 ex_called _ _ _) _).
  - vm_compute. reflexivity.
  - lia.
  - vm_compute. reflexivity.
  - lia.
Defined.

(** GETCOUNT after one claim on the example machine. *)
Lemma getcount_reports_claimed_words_witness :
  kutrace_control [] (ex_hw 200) None KUTRACE_CMD_GETCOUNT 0 ex_claimed
  = Some (set_tracing false ex_claimed,
          if did_wrap_around ex_claimed then not64 (claimed_words ex_claimed)
          else claimed_words ex_claimed).
Proof.
  refine (proj1 (getcount_reports_claimed_words [] (ex_hw 200) None 0
                   ex_claimed _ _ _)).
  - vm_compute. discriminate.
  - vm_compute. split; [discriminate|reflexivity].
  - vm_compute. discriminate.
Defined.

(** A claim of nine words. *)
Lemma bad_len_degrades_witness :
  get_claim [] (ex_hw 100) 9 ex_on = (set_tracing false ex_on, NULL).
Proof.
  refine (proj1 (bad_len_degrades 9 _) [] (ex_hw 100) ex_on). lia.
Defined.

(** Off on the freshly reset example machine. *)
Lemma off_and_flush_idempotent_witness :
  do_trace_off ex_reset = (ex_reset, 0).
Proof.
  refine (proj1 (proj2 (off_and_flush_idempotent ex_reset)) _).
  reflexivity.
Defined.

(** Event code 0x105 asks for zero words. *)
Lemma entry_len_outside_1_8_witness :
  entry_len (Z.shiftl 0x105 EVENT_SHIFT) = 0.
Proof.
  refine (proj1 (proj2 (entry_len_outside_1_8 (Z.shiftl 0x105 EVENT_SHIFT) _)) _).
  - vm_compute. split; discriminate.
  - vm_compute. split; discriminate.
Defined.

(** The first traced event on a CPU arriving at tick 2^31 + 1 makes
    [insert_1] call [get_granular] with [delta_cycles = 2^31]. *)
Example first_ipc_insert_divides_by_zero :
  insert_1 [] (ex_hw (2 ^ 31 + 1)) (Z.shiftl 0x201 EVENT_SHIFT) ex_ipc = None.
Proof. vm_compute. reflexivity. Qed.

(** A return value of -5, passed sign-extended as the range test of
    [trace_1] expects, is not merged into the matching call made fifty
    ticks earlier: the sign bits that [trace_1] leaves in bits 16..31 of
    the candidate word fail the comparison in [insert_1_retopt]. *)
Example negative_return_not_merged :
  ∃ s', trace_1 [] (ex_hw 150) 0xa00 (2 ^ 64 - 5) ex_called = Some s' ∧
        tb_next (tb_of s' 0) = tb_next (tb_of ex_called 0) + 8 ∧
        peek (get_prior (ex_hw 150) ex_called) s'
        = peek (get_prior (ex_hw 150) ex_called) ex_called.
Proof. eexists. split_and!; vm_compute; reflexivity. Qed.
